(** * Shape validation and authorization-gated proxying of [app.js]

    A shallow embedding of the request pipeline of the SPARQL
    authorization wrapper ([src/app.js]): the shape checks
    [ensureSparqlParams], [ensurePOSTSparqlParams], [ensureGETSparqlParams],
    the authorization step [ensureAuthorized], the [onProxyReq] hook of the
    proxy middleware mounted at [/sparql], and the error handler.

    JavaScript values are an inductive type, exceptions are an explicit
    completion type, and the calls made to the outside world (the
    configured [isAuthorized] predicate, the proxy) are recorded in a trace
    so that "never evaluated" and "never contacted" can be stated. *)

From stdpp Require Import gmap strings list pretty.
From Stdlib Require Import ZArith Lia Bool Ascii String.

#[local] Set Warnings "-register-all".
#[local] Open Scope Z_scope.

(* ===================================================================== *)
(** ** JavaScript text: code points, UTF-8, [trim]                        *)
(* ===================================================================== *)

Module Text.

(** A JavaScript string, as the sequence of its Unicode code points. The
    strings of this program come from header values, from decoded request
    bodies and from literals, none of which holds an unpaired surrogate. *)
Definition ustring := list Z.

(** A literal of the source (ASCII) as a JavaScript string. *)
Definition ustr (s : string) : ustring :=
  map (fun a => Z.of_nat (nat_of_ascii a)) (list_ascii_of_string s).

Definition REPLACEMENT : Z := 0xFFFD.

(** State of the UTF-8 decoder between two bytes: either at a character
    boundary, or inside a sequence with the bits read so far, the number
    of continuation bytes still expected, and the range allowed for the
    next one. *)
Inductive dstate : Type :=
  | Idle
  | Pending (cp : Z) (needed : nat) (lower upper : Z).

Definition in_range (lo hi b : Z) : bool := (lo <=? b) && (b <=? hi).

(** A byte read at a character boundary. *)
Definition utf8_lead (b : Z) : list Z * dstate :=
  if in_range 0x00 0x7F b then ([b], Idle)
  else if in_range 0xC2 0xDF b then ([], Pending (Z.land b 0x1F) 1 0x80 0xBF)
  else if in_range 0xE0 0xEF b then
    ([], Pending (Z.land b 0x0F) 2
           (if b =? 0xE0 then 0xA0 else 0x80)
           (if b =? 0xED then 0x9F else 0xBF))
  else if in_range 0xF0 0xF4 b then
    ([], Pending (Z.land b 0x07) 3
           (if b =? 0xF0 then 0x90 else 0x80)
           (if b =? 0xF4 then 0x8F else 0xBF))
  else ([REPLACEMENT], Idle).

(** One byte of input. A byte that cannot continue the pending sequence
    ends it with U+FFFD and is then read again at a character boundary. *)
Definition utf8_step (st : dstate) (b : Z) : list Z * dstate :=
  match st with
  | Idle => utf8_lead b
  | Pending cp needed lower upper =>
      if in_range lower upper b then
        let cp' := Z.lor (Z.shiftl cp 6) (Z.land b 0x3F) in
        match needed with
        | S (S k) => ([], Pending cp' (S k) 0x80 0xBF)
        | _ => ([cp'], Idle)
        end
      else
        let '(out, st') := utf8_lead b in (REPLACEMENT :: out, st')
  end.

Fixpoint utf8_decode_from (st : dstate) (bs : list Z) : ustring :=
  match bs with
  | [] => match st with Idle => [] | Pending _ _ _ _ => [REPLACEMENT] end
  | b :: rest =>
      let '(out, st') := utf8_step st b in out ++ utf8_decode_from st' rest
  end.

(** [buf.toString()] of a Buffer: UTF-8 decoding, every malformed
    sequence replaced by U+FFFD, a leading byte order mark kept. *)
Definition utf8_decode (bs : list Z) : ustring := utf8_decode_from Idle bs.

Definition is_surrogate (c : Z) : bool := in_range 0xD800 0xDFFF c.

(** A Unicode scalar value: a code point that is not a surrogate. *)
Definition is_scalar (c : Z) : bool :=
  in_range 0 0x10FFFF c && negb (is_surrogate c).

Definition utf8_encode_cp (c : Z) : list Z :=
  if c <? 0x80 then [c]
  else if c <? 0x800 then
    [Z.lor 0xC0 (Z.shiftr c 6); Z.lor 0x80 (Z.land c 0x3F)]
  else if is_surrogate c then [0xEF; 0xBF; 0xBD]
  else if c <? 0x10000 then
    [Z.lor 0xE0 (Z.shiftr c 12);
     Z.lor 0x80 (Z.land (Z.shiftr c 6) 0x3F);
     Z.lor 0x80 (Z.land c 0x3F)]
  else
    [Z.lor 0xF0 (Z.shiftr c 18);
     Z.lor 0x80 (Z.land (Z.shiftr c 12) 0x3F);
     Z.lor 0x80 (Z.land (Z.shiftr c 6) 0x3F);
     Z.lor 0x80 (Z.land c 0x3F)].

(** The bytes that writing a string to a stream puts on the wire. *)
Definition utf8_encode (s : ustring) : list Z := flat_map utf8_encode_cp s.

(** Number of UTF-16 code units of a string, its JavaScript [length]. *)
Definition utf16_length (s : ustring) : Z :=
  fold_right (fun c n => (if c <? 0x10000 then 1 else 2) + n) 0 s.

(** WhiteSpace and LineTerminator of ECMAScript, what [trim] strips. *)
Definition is_js_whitespace (c : Z) : bool :=
  in_range 0x09 0x0D c || (c =? 0x20) || (c =? 0xA0) || (c =? 0x1680)
  || in_range 0x2000 0x200A c || (c =? 0x2028) || (c =? 0x2029)
  || (c =? 0x202F) || (c =? 0x205F) || (c =? 0x3000) || (c =? 0xFEFF).

Fixpoint trim_start (s : ustring) : ustring :=
  match s with
  | c :: rest => if is_js_whitespace c then trim_start rest else s
  | [] => []
  end.

Definition trim (s : ustring) : ustring :=
  rev (trim_start (rev (trim_start s))).

Definition lower_ascii (a : ascii) : ascii :=
  let n := nat_of_ascii a in
  if (65 <=? n)%nat && (n <=? 90)%nat then ascii_of_nat (n + 32) else a.

(** [name.toLowerCase()] on the ASCII names this program uses. *)
Fixpoint toLowerCase (s : string) : string :=
  match s with
  | EmptyString => EmptyString
  | String a rest => String (lower_ascii a) (toLowerCase rest)
  end.

(** Does [hay] contain [needle] as a substring. *)
Fixpoint contains (needle hay : string) : bool :=
  String.prefix needle hay
  || match hay with
     | EmptyString => false
     | String _ rest => contains needle rest
     end.

(** [needle] occurs somewhere in [hay]. *)
Definition has_substring (needle hay : string) : Prop :=
  exists before after, hay = before +:+ needle +:+ after.

End Text.

(* ===================================================================== *)
(** ** JavaScript values, exceptions                                      *)
(* ===================================================================== *)

Module JS.
Import Text.

(** The values a request body, a form field, a URL parameter or the
    result of the authorization predicate can be. Numbers are restricted
    to the integers (no NaN, no fractions). An object is the finite map
    of its own enumerable properties, a Buffer the list of its bytes. *)
Inductive jsval : Type :=
  | JUndefined
  | JNull
  | JBool (b : bool)
  | JNum (n : Z)
  | JStr (s : ustring)
  | JArr (elems : list jsval)
  | JObj (props : gmap string jsval)
  | JBuffer (bytes : list Z).

(** ToBoolean: what [!v] and [if (v)] look at. *)
Definition truthy (v : jsval) : bool :=
  match v with
  | JUndefined | JNull => false
  | JBool b => b
  | JNum n => negb (n =? 0)
  | JStr s => match s with [] => false | _ => true end
  | JArr _ | JObj _ | JBuffer _ => true
  end.

(** The text [v.toString()] returns where the conversion succeeds (see
    [toString_throws]), and which [String(v)] returns for [undefined] and
    [null]. Objects are plain objects, with [Object.prototype] behind
    them. *)
Fixpoint js_toString (v : jsval) : ustring :=
  match v with
  | JUndefined => ustr "undefined"
  | JNull => ustr "null"
  | JBool true => ustr "true"
  | JBool false => ustr "false"
  | JNum n => ustr (pretty n)
  | JStr s => s
  | JArr elems =>
      (fix join (l : list jsval) : ustring :=
         let elem x :=
           match x with
           | JUndefined | JNull => []
           | _ => js_toString x
           end in
         match l with
         | [] => []
         | [x] => elem x
         | x :: rest => elem x ++ ustr "," ++ join rest
         end) elems
  | JObj _ => ustr "[object Object]"
  | JBuffer bytes => utf8_decode bytes
  end.

(** A thrown object: its [message], and its [status] property when it
    has one (an integer). *)
Record js_error : Type := mkError {
  err_status : option Z;
  err_message : string;
}.

(** A value that is not an object, as something thrown. *)
Inductive primitive : Type :=
  | PUndefined
  | PNull
  | PBool (b : bool)
  | PNum (n : Z)
  | PStr (s : ustring).

Definition primitive_truthy (p : primitive) : bool :=
  match p with
  | PUndefined | PNull => false
  | PBool b => b
  | PNum n => negb (n =? 0)
  | PStr s => match s with [] => false | _ => true end
  end.

(** How a computation completes: normally with a value, by throwing an
    object, or by throwing a value that is not an object. The functions of
    [app.js] throw Error objects only; the configured predicate can reject
    with anything. *)
Inductive completion (A : Type) : Type :=
  | Normal (a : A)
  | Throw (e : js_error)
  | ThrowValue (p : primitive).
Arguments Normal {A} a.
Arguments Throw {A} e.
Arguments ThrowValue {A} p.

(** The TypeError the engine or Node raises; it carries no [status]. *)
Definition TypeError (msg : string) : js_error :=
  {| err_status := None; err_message := msg |}.

(** Does the conversion of [v] to a string throw: an object with a
    property of its own named [toString] hides the method of the
    prototype, and no value of [jsval] is a function; an array converts its
    elements. *)
Fixpoint toString_throws (v : jsval) : bool :=
  match v with
  | JObj props => bool_decide (is_Some (props !! "toString"))
  | JArr elems =>
      (fix any (l : list jsval) : bool :=
         match l with
         | [] => false
         | x :: rest => toString_throws x || any rest
         end) elems
  | _ => false
  end.

(** [v.toString()] as a method call: [undefined] and [null] have no
    properties to read, and the conversion can throw. *)
Definition method_toString (v : jsval) : completion ustring :=
  match v with
  | JUndefined | JNull =>
      Throw (TypeError "Cannot read properties of undefined (reading 'toString')")
  | _ =>
      if toString_throws v then
        Throw (TypeError "toString is not a function")
      else Normal (js_toString v)
  end.

(** [v?.k] for a key [k] that is not a built-in property of strings,
    arrays and Buffers (here always [query]). *)
Definition optional_member (v : jsval) (k : string) : jsval :=
  match v with
  | JObj props => default JUndefined (props !! k)
  | _ => JUndefined
  end.

(** [Object.keys(v).length]. *)
Definition Object_keys_length (v : jsval) : completion Z :=
  match v with
  | JUndefined | JNull =>
      Throw (TypeError "Cannot convert undefined or null to object")
  | JBool _ | JNum _ => Normal 0
  | JStr s => Normal (utf16_length s)
  | JArr elems => Normal (Z.of_nat (List.length elems))
  | JObj props => Normal (Z.of_nat (size props))
  | JBuffer bytes => Normal (Z.of_nat (List.length bytes))
  end.

(** [Buffer.byteLength(v)]: defined on strings and on Buffers only. *)
Definition Buffer_byteLength (v : jsval) : completion Z :=
  match v with
  | JStr s => Normal (Z.of_nat (List.length (utf8_encode s)))
  | JBuffer bytes => Normal (Z.of_nat (List.length bytes))
  | _ =>
      Throw (TypeError "The string argument must be of type string or an instance of Buffer or ArrayBuffer")
  end.

(** [re.test(x)] for a regular expression that is a plain literal: the
    argument is converted to a string ([undefined] reads "undefined") and
    searched for the literal anywhere in it. *)
Definition regex_test (literal : string) (x : option string) : bool :=
  contains literal (default "undefined" x).

End JS.

(* ===================================================================== *)
(** ** The parts of Express, Node and N3 the program calls                *)
(* ===================================================================== *)

Module Express.
Import Text JS.

(** An incoming request as the middlewares see it, after the body
    parsers have run. [headers] is Node's header object, whose keys are
    in lower case. *)
Record request : Type := mkRequest {
  method : string;
  path : string;
  headers : gmap string string;
  query : gmap string jsval;
  body : jsval;
}.

(** [req.get(name)]: header lookup that ignores the case of [name]. *)
Definition req_get (req : request) (name : string) : option string :=
  let lc := toLowerCase name in
  if bool_decide (lc = "referer" ∨ lc = "referrer") then
    match headers req !! "referrer" with
    | Some v => if bool_decide (v = "") then headers req !! "referer" else Some v
    | None => headers req !! "referer"
    end
  else headers req !! lc.

(** Does a middleware mounted with [app.use(mount, ...)] see a request
    for [path]: the mount path, compared without case, followed by the
    end of the path or by a slash. *)
Definition mount_matches (mount path : string) : bool :=
  let m := toLowerCase mount in
  let p := toLowerCase path in
  String.prefix m p
  && match String.get (String.length m) p with
     | None => true
     | Some c => bool_decide (c = "/"%char)
     end.

(** The answer the error handler sends. The JSON-LD document it renders
    carries the message; its rendering is left to the jsonld library. *)
Record response : Type := mkResponse {
  res_status : Z;
  res_message : string;
}.

(** A value put in a header of an outgoing request. *)
Inductive hvalue : Type :=
  | HStr (s : string)
  | HNum (n : Z).

(** The outgoing request the proxy builds: its headers (keys in lower
    case) and the body bytes written to it so far. *)
Record proxyReq : Type := mkProxyReq {
  pr_headers : gmap string hvalue;
  pr_written : list Z;
}.

Definition getHeader (p : proxyReq) (name : string) : option string :=
  match pr_headers p !! toLowerCase name with
  | Some (HStr s) => Some s
  | Some (HNum n) => Some (pretty n)
  | None => None
  end.

Definition setHeader (p : proxyReq) (name : string) (v : hvalue) : proxyReq :=
  {| pr_headers := <[toLowerCase name := v]> (pr_headers p);
     pr_written := pr_written p |}.

(** [proxyReq.write(s)] with a string: its UTF-8 bytes go on the wire. *)
Definition write (p : proxyReq) (s : ustring) : proxyReq :=
  {| pr_headers := pr_headers p;
     pr_written := pr_written p ++ utf8_encode s |}.

(** White space for the [\s] of a regular expression, among the
    characters a header value can hold. *)
Definition is_regex_space (a : ascii) : bool :=
  let n := nat_of_ascii a in
  ((9 <=? n)%nat && (n <=? 13)%nat) || (n =? 32)%nat || (n =? 160)%nat.

Fixpoint strip_start (s : string) : string :=
  match s with
  | String a rest => if is_regex_space a then strip_start rest else s
  | EmptyString => EmptyString
  end.

Definition string_rev (s : string) : string :=
  string_of_list_ascii (rev (list_ascii_of_string s)).

Definition strip (s : string) : string :=
  string_rev (strip_start (string_rev (strip_start s))).

(** The pieces of [s] between its commas. *)
Fixpoint split_commas (s : string) : list string :=
  match s with
  | EmptyString => [EmptyString]
  | String a rest =>
      if bool_decide (a = ","%char) then EmptyString :: split_commas rest
      else match split_commas rest with
           | piece :: pieces => String a piece :: pieces
           | [] => [String a EmptyString]
           end
  end.

(** The test of the proxy library on a Connection header,
    [/(^|,)\s*upgrade\s*($|,)/i]: one of the pieces between commas is the
    word upgrade, in any letter case, with white space around it at
    most. *)
Definition upgradeHeader_test (connection : string) : bool :=
  existsb (fun piece => bool_decide (toLowerCase (strip piece) = "upgrade"))
    (split_commas connection).

(** The outgoing request before [onProxyReq] runs, as the proxy library
    sets it up with the options of [app.js]: the headers of the incoming
    request, with [connection: close] unless the request asks for an
    upgrade; nothing written. *)
Definition outgoing (req : request) : proxyReq :=
  let copied := headers req in
  let keeps_connection :=
    match copied !! "connection" with
    | Some c => upgradeHeader_test c
    | None => false
    end in
  {| pr_headers :=
       HStr <$> (if keeps_connection then copied
                 else <["connection" := "close"]> copied);
     pr_written := [] |}.

(** What [next(err)] does when [err] is not an object: no value, a falsy
    value and the string [route] mean that there is no error, and the next
    middleware runs; the string [router] leaves the router; any other value
    goes to the error handlers. *)
Inductive routing : Type :=
  | Continue
  | ExitRouter
  | ToErrorHandler.

(** [err === word]. *)
Definition is_the_string (word : string) (err : primitive) : bool :=
  match err with
  | PStr s => bool_decide (s = ustr word)
  | _ => false
  end.

Definition next_with (err : primitive) : routing :=
  if is_the_string "route" err then Continue
  else if negb (primitive_truthy err) then Continue
  else if is_the_string "router" err then ExitRouter
  else ToErrorHandler.

End Express.

Module N3.
(** A named node of the N3 data factory keeps the IRI it was given. *)
Record NamedNode : Type := mkNamedNode { value : option string }.
Definition namedNode (iri : option string) : NamedNode := {| value := iri |}.
End N3.

(* ===================================================================== *)
(** ** [app.js]                                                           *)
(* ===================================================================== *)

Module App.
Import Text JS Express N3.

(** *** Calls to the outside, and the monad that records them *)

(** What the pipeline asks of its collaborators while it handles one
    request: the configured predicate, called with the session URI, and
    the proxy middleware, which opens the request to the database. *)
Inductive event : Type :=
  | CallIsAuthorized (sessionUri : option string)
  | CallProxy.

(** A computation that may throw and that records its calls. *)
Definition M (A : Type) : Type := list event * completion A.

Definition ret {A} (a : A) : M A := ([], Normal a).
Definition throw {A} (e : js_error) : M A := ([], Throw e).
Definition lift {A} (c : completion A) : M A := ([], c).

Definition bind {A B} (m : M A) (k : A -> M B) : M B :=
  match m with
  | (t, Normal a) => let '(t', r) := k a in (t ++ t', r)
  | (t, Throw e) => (t, Throw e)
  | (t, ThrowValue p) => (t, ThrowValue p)
  end.

#[local] Notation "x <- m ;; k" := (bind m (fun x => k))
  (at level 100, m at next level, right associativity).
#[local] Notation "m ;;; k" := (bind m (fun _ => k))
  (at level 100, right associativity).

(** *** Messages of the errors the program creates *)

Definition DQUOTE : string := String (ascii_of_nat 34) EmptyString.
Definition quoted (s : string) : string := DQUOTE +:+ s +:+ DQUOTE.

Definition FORM_TYPE : string := "application/x-www-form-urlencoded".
Definition SPARQL_TYPE : string := "application/sparql-query".

Definition MSG_METHOD : string :=
  "Not a correctly formed request for SPARQL queries.".
Definition MSG_SESSION : string :=
  "The required " +:+ quoted "mu-session-id" +:+
  " header could not be found. This is usually attached to the request by the mu-identifier.".
Definition MSG_FORM : string :=
  "When querying with POST and Content-Type " +:+ quoted FORM_TYPE +:+
  ", you must supply the query as a form parameter.".
Definition MSG_RAW : string :=
  "When querying with POST and Content-Type " +:+ quoted SPARQL_TYPE +:+
  ", you must supply the query as the body.".
Definition MSG_CONTENT_TYPE : string :=
  "Content-Type not valid, only " +:+ quoted FORM_TYPE +:+ " or " +:+
  quoted SPARQL_TYPE +:+ " are accepted".
Definition MSG_GET_QUERY : string :=
  "When executing a GET request, the query should be supplied as a URL query parameter.".
Definition MSG_GET_BODY : string :=
  "When executing a GET request, the body needs to be empty".
Definition MSG_FORBIDDEN : string :=
  "This session is not authorized to execute SPARQL queries.".

(** [new Error(msg)] followed by [err.status = status]. *)
Definition error_with_status (status : Z) (msg : string) : js_error :=
  {| err_status := Some status; err_message := msg |}.

(** [new Error(msg)], thrown as it is. *)
Definition plain_error (msg : string) : js_error :=
  {| err_status := None; err_message := msg |}.

(** *** Shape checks *)

(** The branch of [ensurePOSTSparqlParams] for a form: [req.body?.query]
    must be truthy. *)
Definition form_shape_check (req : request) : completion unit :=
  if negb (truthy (optional_member (body req) "query")) then
    Throw (error_with_status 400 MSG_FORM)
  else Normal tt.

(** Its branch for a raw query: [req.body.toString().trim()] must not be
    the empty string. *)
Definition raw_shape_check (req : request) : completion unit :=
  match method_toString (body req) with
  | Throw e => Throw e
  | ThrowValue p => ThrowValue p
  | Normal text =>
      match trim text with
      | [] => Throw (error_with_status 400 MSG_RAW)
      | _ => Normal tt
      end
  end.

Definition ensurePOSTSparqlParams (req : request) : completion unit :=
  let contentType := req_get req "Content-Type" in
  if regex_test FORM_TYPE contentType then form_shape_check req
  else if regex_test SPARQL_TYPE contentType then raw_shape_check req
  else Throw (error_with_status 400 MSG_CONTENT_TYPE).

Definition ensureGETSparqlParams (req : request) : completion unit :=
  if negb (truthy (default JUndefined (query req !! "query"))) then
    Throw (plain_error MSG_GET_QUERY)
  else
    match Object_keys_length (body req) with
    | Throw e => Throw e
    | ThrowValue p => ThrowValue p
    | Normal n =>
        if negb (n =? 0) then Throw (plain_error MSG_GET_BODY)
        else Normal tt
    end.

(** The [switch] on the method alone, before the session header is
    looked at. *)
Definition method_dispatch (req : request) : completion unit :=
  if bool_decide (method req = "POST") then ensurePOSTSparqlParams req
  else if bool_decide (method req = "GET") then ensureGETSparqlParams req
  else Throw (error_with_status 401 MSG_METHOD).

(** [!req.get('Mu-Session-Id')]: the header is missing or empty. *)
Definition session_header_missing (req : request) : bool :=
  match req_get req "Mu-Session-Id" with
  | None => true
  | Some v => bool_decide (v = "")
  end.

Definition ensureSparqlParams (req : request) : completion unit :=
  match method_dispatch req with
  | Throw e => Throw e
  | ThrowValue p => ThrowValue p
  | Normal _ =>
      if session_header_missing req then
        Throw (error_with_status 401 MSG_SESSION)
      else Normal tt
  end.

(** *** The error handler *)

(** [err.status || 500]. *)
Definition status_or_500 (err : js_error) : Z :=
  match err_status err with
  | Some s => if s =? 0 then 500 else s
  | None => 500
  end.

(** The status as the response writes it: [statusCode |= 0]. *)
Definition to_int32 (n : Z) : Z :=
  (n + 2147483648) mod 4294967296 - 2147483648.

(** The error handler: the answer it sends, or [None] when the status it
    has set is not a status code (below 100 or above 999), in which case
    writing the answer throws inside the handler and no answer is sent.
    The errors this program makes have the statuses 400, 401 and 403 or
    none; for a status from 200 to 399, which only an error raised by the
    predicate can carry, the answer to a conditional GET is not followed
    further than its status as set here. *)
Definition errorHandler (err : js_error) : option response :=
  let code := to_int32 (status_or_500 err) in
  if (100 <=? code) && (code <=? 999) then
    Some {| res_status := code; res_message := err_message err |}
  else None.

(** The error handler on a thrown value that is not an object: it has no
    [status] and no [message] to read. *)
Definition errorHandler_primitive : response :=
  {| res_status := 500; res_message := "undefined" |}.

Section Pipeline.

(** The predicate of [config/filter.js], supplied by the deployment:
    given the session URI it resolves to a value, or rejects with an
    object or with any other value. *)
Variable isAuthorized : option string -> completion jsval.

(** [fixRequestBody] of http-proxy-middleware, which rewrites the
    bodies that are not raw SPARQL. *)
Variable fixRequestBody : proxyReq -> request -> proxyReq.

(** *** Authorization *)

Definition call_isAuthorized (sessionUri : option string) : M jsval :=
  ([CallIsAuthorized sessionUri], isAuthorized sessionUri).

Definition ensureAuthorized (session : NamedNode) : M unit :=
  isAuth <- call_isAuthorized (value session) ;;
  if negb (truthy isAuth) then
    throw (error_with_status 403 MSG_FORBIDDEN)
  else ret tt.

(** The first middleware. [Normal] is [next()]; [Throw err] and
    [ThrowValue err] are [next(err)]. *)
Definition checkingMiddleware (req : request) : M unit :=
  lift (ensureSparqlParams req) ;;;
  let session := namedNode (req_get req "Mu-Session-Id") in
  ensureAuthorized session.

(** *** The proxy *)

Definition onProxyReq (p : proxyReq) (req : request) : completion proxyReq :=
  let body := body req in
  if negb (truthy body) then Normal p
  else
    let contentType := getHeader p "Content-Type" in
    if regex_test SPARQL_TYPE contentType then
      match Buffer_byteLength body with
      | Throw e => Throw e
      | ThrowValue v => ThrowValue v
      | Normal n =>
          let p1 := setHeader p "Content-Length" (HNum n) in
          match method_toString body with
          | Throw e => Throw e
          | ThrowValue v => ThrowValue v
          | Normal text => Normal (write p1 text)
          end
      end
    else Normal (fixRequestBody p req).

(** How the handling of one request ends: with the answer of the error
    handler; with the request handed to the database; with [onProxyReq]
    throwing; with the error handler throwing, so that no answer is sent;
    with no middleware of this file ending it, which leaves it to what
    follows them in the application; or with the router left at once, for
    the final handler of the application. *)
Inductive outcome : Type :=
  | Responded (r : response)
  | Proxied (p : proxyReq)
  | ProxyHookThrew (e : js_error)
  | ProxyHookThrewValue (v : primitive)
  | HandlerThrew
  | NotRouted
  | LeftRouter.

Definition render (answer : option response) : outcome :=
  match answer with
  | Some r => Responded r
  | None => HandlerThrew
  end.

(** The proxy mounted at [/sparql], reached without an error. *)
Definition proxyStage (t : list event) (req : request)
  : list event * outcome :=
  if mount_matches "/sparql" (path req) then
    (t ++ [CallProxy],
     match onProxyReq (outgoing req) req with
     | Normal p => Proxied p
     | Throw e => ProxyHookThrew e
     | ThrowValue v => ProxyHookThrewValue v
     end)
  else (t, NotRouted).

(** The middleware chain from the checking middleware on, for a request
    the body parsers have passed on: the check, then what [next] does with
    its result, the error handler or the proxy mounted at [/sparql]. (An
    error of a body parser goes to the error handler without reaching this
    chain.) *)
Definition app (req : request) : list event * outcome :=
  match checkingMiddleware req with
  | (t, Normal _) => proxyStage t req
  | (t, Throw err) => (t, render (errorHandler err))
  | (t, ThrowValue v) =>
      match next_with v with
      | Continue => proxyStage t req
      | ExitRouter => (t, LeftRouter)
      | ToErrorHandler => (t, Responded errorHandler_primitive)
      end
  end.

End Pipeline.

(** *** What a run of the pipeline did *)

Definition is_auth_call (e : event) : bool :=
  match e with CallIsAuthorized _ => true | CallProxy => false end.
Definition is_proxy_call (e : event) : bool :=
  match e with CallProxy => true | CallIsAuthorized _ => false end.

Definition authorization_evaluated (t : list event) : bool :=
  existsb is_auth_call t.
Definition upstream_contacted (t : list event) : bool :=
  existsb is_proxy_call t.

(** The status code of the answer, when the pipeline itself answers. *)
Definition status_of (o : outcome) : option Z :=
  match o with
  | Responded r => Some (res_status r)
  | _ => None
  end.

End App.

(* ===================================================================== *)
(** ** Sample requests and predicates                                     *)
(* ===================================================================== *)

Module Samples.
Import Text JS Express App.

Definition SESSION : string := "http://example/sessions/1".
Definition SELECT : ustring := ustr "SELECT * WHERE { ?s ?p ?o } LIMIT 1".

(** A raw query posted with its session, as in the spec's scenario. *)
Definition raw_post : request :=
  {| method := "POST"; path := "/sparql";
     headers := {[ "content-type" := "application/sparql-query";
                   "mu-session-id" := SESSION ]};
     query := ∅;
     body := JBuffer (utf8_encode SELECT) |}.

Definition raw_post_charset : request :=
  {| method := "POST"; path := "/sparql";
     headers := {[ "content-type" := "application/sparql-query; charset=utf-8";
                   "mu-session-id" := SESSION ]};
     query := ∅;
     body := JBuffer (utf8_encode SELECT) |}.

Definition raw_post_no_session : request :=
  {| method := "POST"; path := "/sparql";
     headers := {[ "content-type" := "application/sparql-query" ]};
     query := ∅;
     body := JBuffer (utf8_encode SELECT) |}.

(** A raw body that is not UTF-8: the single byte FF. *)
Definition raw_post_not_utf8 : request :=
  {| method := "POST"; path := "/sparql";
     headers := {[ "content-type" := "application/sparql-query";
                   "mu-session-id" := SESSION ]};
     query := ∅;
     body := JBuffer [0xFF] |}.

(** A raw query whose Content-Type also mentions the form type, in a
    parameter. *)
Definition raw_post_two_types : request :=
  {| method := "POST"; path := "/sparql";
     headers :=
       {[ "content-type" :=
            "application/sparql-query; note=application/x-www-form-urlencoded";
          "mu-session-id" := SESSION ]};
     query := ∅;
     body := JBuffer (utf8_encode SELECT) |}.

Definition form_post : request :=
  {| method := "POST"; path := "/sparql";
     headers :=
       {[ "content-type" := "application/x-www-form-urlencoded; charset=UTF-8";
          "mu-session-id" := SESSION ]};
     query := ∅;
     body := JObj {[ "query" := JStr SELECT ]} |}.

Definition form_post_empty_query : request :=
  {| method := "POST"; path := "/sparql";
     headers :=
       {[ "content-type" := "application/x-www-form-urlencoded";
          "mu-session-id" := SESSION ]};
     query := ∅;
     body := JObj {[ "query" := JStr [] ]} |}.

Definition post_without_content_type : request :=
  {| method := "POST"; path := "/sparql";
     headers := {[ "mu-session-id" := SESSION ]};
     query := ∅;
     body := JObj ∅ |}.

Definition get_without_query : request :=
  {| method := "GET"; path := "/sparql";
     headers := {[ "mu-session-id" := SESSION ]};
     query := ∅;
     body := JObj ∅ |}.

Definition get_with_body : request :=
  {| method := "GET"; path := "/sparql";
     headers := {[ "content-type" := "application/json";
                   "mu-session-id" := SESSION ]};
     query := {[ "query" := JStr SELECT ]};
     body := JObj {[ "a" := JNum 1 ]} |}.

Definition get_with_body_no_session : request :=
  {| method := "GET"; path := "/sparql";
     headers := {[ "content-type" := "application/json" ]};
     query := {[ "query" := JStr SELECT ]};
     body := JObj {[ "a" := JNum 1 ]} |}.

Definition put_request : request :=
  {| method := "PUT"; path := "/sparql";
     headers := {[ "content-type" := "application/sparql-query";
                   "mu-session-id" := SESSION ]};
     query := ∅;
     body := JBuffer (utf8_encode SELECT) |}.

Definition allow_all (_ : option string) : completion jsval :=
  Normal (JBool true).
Definition deny_all (_ : option string) : completion jsval :=
  Normal (JBool false).



Definition fix_untouched (p : proxyReq) (_ : request) : proxyReq := p.

(** A predicate that rejects without a reason ([Promise.reject()], or
    [throw undefined]). *)
Definition rejects_with_nothing (_ : option string) : completion jsval :=
  ThrowValue PUndefined.

(** The outgoing request for [raw_post]: its headers, Content-Length set
    to the 35 bytes of the query, and the query written. *)
Definition raw_post_outgoing : proxyReq :=
  write (setHeader (outgoing raw_post) "Content-Length" (HNum 35)) SELECT.

End Samples.

(* ===================================================================== *)
(** ** [env.js]: the prefix table and what is built from it               *)
(* ===================================================================== *)

Module Env.
Import Text N3.

Definition PREFIXES : list (string * string) :=
  [ ("rdf", "http://www.w3.org/1999/02/22-rdf-syntax-ns#");
    ("xsd", "http://www.w3.org/2001/XMLSchema#");
    ("mu", "http://mu.semte.ch/vocabularies/core/");
    ("foaf", "http://xmlns.com/foaf/0.1/");
    ("muAccount", "http://mu.semte.ch/vocabularies/account/");
    ("wotSec", "https://www.w3.org/2019/wot/security#");
    ("lblodAuth", "http://lblod.data.gift/vocabularies/authentication/");
    ("pav", "http://purl.org/pav/");
    ("session", "http://mu.semte.ch/vocabularies/session/");
    ("oslc", "http://open-services.net/ns/core#");
    ("dct", "http://purl.org/dc/terms/") ].

(** [table[key]], for a table written as an object literal. *)
Fixpoint table_get (table : list (string * string)) (key : string)
  : option string :=
  match table with
  | [] => None
  | (k, v) :: rest =>
      if bool_decide (k = key) then Some v else table_get rest key
  end.

(** The keys [for (const key in table)] goes through, in the order of the
    literal. *)
Definition table_keys (table : list (string * string)) : list string :=
  map fst table.

(** A value placed in a template literal: [undefined] reads "undefined". *)
Definition interpolate (v : option string) : string := default "undefined" v.

(** The function stored under [key]: [(pred) => namedNode(...)]. *)
Definition namespace_of (table : list (string * string)) (key : string)
  : string -> NamedNode :=
  fun pred => namedNode (Some (interpolate (table_get table key) +:+ pred)).

(** The loop of [NAMESPACES], for any table: [all[key] = ...] for each
    key, starting from the empty object. *)
Definition namespaces_of (table : list (string * string))
  : gmap string (string -> NamedNode) :=
  fold_left (fun all key => <[key := namespace_of table key]> all)
    (table_keys table) ∅.

Definition NAMESPACES : gmap string (string -> NamedNode) :=
  namespaces_of PREFIXES.

Definition NEWLINE : string := String (ascii_of_nat 10) EmptyString.

(** One pushed line: [`PREFIX ${key}: <${table[key]}>`]. *)
Definition prefix_line (table : list (string * string)) (key : string)
  : string :=
  "PREFIX " +:+ key +:+ ": <" +:+ interpolate (table_get table key) +:+ ">".

(** The loop of [SPARQL_PREFIXES], for any table: [all.push(...)] for each
    key, then [all.join] with a newline. *)
Definition sparql_prefixes_of (table : list (string * string)) : string :=
  let all :=
    fold_left (fun all key => all ++ [prefix_line table key])
      (table_keys table) [] in
  String.concat NEWLINE all.

Definition SPARQL_PREFIXES : string := sparql_prefixes_of PREFIXES.

End Env.

(* ===================================================================== *)
(** ** [errorToStore]                                                     *)
(* ===================================================================== *)

Module ErrorStore.
Import Text JS N3 Env.

(** The RDF terms the program makes with the N3 data factory. *)
Inductive term : Type :=
  | Named (n : NamedNode)
  | Blank (id : string)
  | Literal (v : string).

#[global] Instance NamedNode_eq_dec : EqDecision NamedNode.
Proof. solve_decision. Defined.

#[global] Instance term_eq_dec : EqDecision term.
Proof. solve_decision. Defined.

(** A quad in the default graph: subject, predicate, object. *)
Record quad : Type := mkQuad {
  subject : term;
  predicate : term;
  object : term;
}.

#[global] Instance quad_eq_dec : EqDecision quad.
Proof. solve_decision. Defined.

(** An N3 store, as the quads it holds; a quad is held once. *)
Definition store : Type := list quad.

Definition addQuad (s : store) (subj pred obj : term) : store :=
  let q := {| subject := subj; predicate := pred; object := obj |} in
  if bool_decide (q ∈ s) then s else s ++ [q].

(** [ns.key`pred`]: the function stored in [NAMESPACES] under [key],
    called as a template tag. *)
Definition ns (key pred : string) : completion term :=
  match NAMESPACES !! key with
  | Some f => Normal (Named (f pred))
  | None => Throw (TypeError "ns[key] is not a function")
  end.

(** [errorToStore], given the results of its two calls to [uuid()]. *)
Definition errorToStore (uuid1 uuid2 : string) (errorObject : js_error)
  : completion store :=
  let store0 : store := [] in
  let error := Blank uuid1 in
  match ns "rdf" "type", ns "oslc" "Error" with
  | Normal p1, Normal o1 =>
      let store1 := addQuad store0 error p1 o1 in
      match ns "mu" "uuid" with
      | Normal p2 =>
          let store2 := addQuad store1 error p2 (Literal uuid2) in
          match ns "oslc" "message" with
          | Normal p3 =>
              Normal (addQuad store2 error p3
                        (Literal (err_message errorObject)))
          | Throw e => Throw e
          | ThrowValue v => ThrowValue v
          end
      | Throw e => Throw e
      | ThrowValue v => ThrowValue v
      end
  | Throw e, _ => Throw e
  | ThrowValue v, _ => ThrowValue v
  | _, Throw e => Throw e
  | _, ThrowValue v => ThrowValue v
  end.

End ErrorStore.

(* ===================================================================== *)
(** ** More sample requests                                               *)
(* ===================================================================== *)

Module MoreSamples.
Import Text JS Express App Samples.

(** A raw POST sent without a body, which the body parsers leave as the
    empty object. *)
Definition raw_post_object_body : request :=
  {| method := "POST"; path := "/sparql";
     headers := {[ "content-type" := "application/sparql-query";
                   "mu-session-id" := SESSION ]};
     query := ∅;
     body := JObj ∅ |}.

(** A raw POST whose body is two spaces and a line feed. *)
Definition raw_post_blank : request :=
  {| method := "POST"; path := "/sparql";
     headers := {[ "content-type" := "application/sparql-query";
                   "mu-session-id" := SESSION ]};
     query := ∅;
     body := JBuffer [0x20; 0x20; 0x0A] |}.

(** A raw POST whose Content-Type is written in capitals. *)
Definition raw_post_capitals : request :=
  {| method := "POST"; path := "/sparql";
     headers := {[ "content-type" := "Application/SPARQL-Query";
                   "mu-session-id" := SESSION ]};
     query := ∅;
     body := JBuffer (utf8_encode SELECT) |}.

(** A raw POST whose session header is there and empty. *)
Definition raw_post_empty_session : request :=
  {| method := "POST"; path := "/sparql";
     headers := {[ "content-type" := "application/sparql-query";
                   "mu-session-id" := "" ]};
     query := ∅;
     body := JBuffer (utf8_encode SELECT) |}.

(** A GET with its query in the URL and the empty body the parsers leave. *)
Definition get_with_query : request :=
  {| method := "GET"; path := "/sparql";
     headers := {[ "mu-session-id" := SESSION ]};
     query := {[ "query" := JStr SELECT ]};
     body := JObj ∅ |}.

(** A small table with a key of its own. *)
Definition two_prefixes : list (string * string) :=
  [ ("ex", "http://example/"); ("mu", "http://mu.semte.ch/vocabularies/core/") ].

End MoreSamples.

(* ===================================================================== *)
(** ** Facts about text                                                   *)
(* ===================================================================== *)

Module TextFacts.
Import Text.

Lemma prefix_spec (p s : string) :
  String.prefix p s = true <-> exists after, s = p +:+ after.
Proof.
  revert s. induction p as [| a p IH]; intros s.
  - split; [intros _; exists s; reflexivity | intros _; destruct s; reflexivity].
  - destruct s as [| b s]; cbn [String.prefix].
    + split; [discriminate | intros [after H]; discriminate].
    + destruct (Ascii.ascii_dec a b) as [-> | Hne].
      * rewrite IH. split; intros [after H]; exists after.
        -- cbn. now rewrite H.
        -- cbn in H. now injection H.
      * split; [discriminate |].
        intros [after H]. cbn in H. injection H as Hab _. congruence.
Qed.

Lemma contains_spec (needle hay : string) :
  contains needle hay = true <-> has_substring needle hay.
Proof.
  unfold has_substring. split.
  - induction hay as [| c hay IH]; cbn [contains]; intros H.
    + rewrite orb_false_r in H. apply prefix_spec in H as [after H].
      exists EmptyString, after. exact H.
    + apply orb_prop in H as [H | H].
      * apply prefix_spec in H as [after H].
        exists EmptyString, after. exact H.
      * destruct (IH H) as (before & after & ->).
        exists (String c before), after. reflexivity.
  - intros (before & after & ->).
    induction before as [| c before IH].
    + change (contains needle (needle +:+ after) = true).
      assert (Hp : String.prefix needle (needle +:+ after) = true)
        by (apply prefix_spec; eauto).
      revert Hp. generalize (needle +:+ after). intros h Hp.
      destruct h; cbn [contains]; rewrite Hp; reflexivity.
    + change (contains needle (String c (before +:+ needle +:+ after)) = true).
      cbn [contains]. rewrite IH. apply orb_true_r.
Qed.

Lemma contains_false (needle hay : string) :
  contains needle hay = false <-> ~ has_substring needle hay.
Proof.
  rewrite <- contains_spec. destruct (contains needle hay); split;
    congruence.
Qed.

Lemma testbit_above (x n i : Z) :
  0 <= n -> 0 <= x < 2 ^ n -> n <= i -> Z.testbit x i = false.
Proof.
  intros Hn Hx Hi.
  rewrite <- (Z.mod_small x (2 ^ n)) by lia.
  rewrite <- Z.land_ones by lia.
  rewrite Z.land_spec, Z.ones_spec_high by lia.
  apply andb_false_r.
Qed.

(** Or-ing below a shifted value adds. *)
Lemma lor_shiftl_add (hi lo n : Z) :
  0 <= n -> 0 <= lo < 2 ^ n -> Z.lor (Z.shiftl hi n) lo = hi * 2 ^ n + lo.
Proof.
  intros Hn Hlo.
  rewrite <- Z.shiftl_mul_pow2 by lia.
  assert (Hdisj : Z.land (Z.shiftl hi n) lo = 0).
  { apply Z.bits_inj'. intros i Hi.
    rewrite Z.land_spec, Z.bits_0.
    destruct (Z.lt_ge_cases i n).
    - rewrite Z.shiftl_spec_low by lia. reflexivity.
    - rewrite (testbit_above lo n i) by lia. apply andb_false_r. }
  rewrite <- Z.lxor_lor by exact Hdisj.
  symmetry. apply Z.add_nocarry_lxor. exact Hdisj.
Qed.

Lemma land_low (x n : Z) : 0 <= n -> Z.land x (2 ^ n - 1) = x mod 2 ^ n.
Proof.
  intros Hn. rewrite <- Z.land_ones by lia.
  rewrite Z.ones_equiv. f_equal; lia.
Qed.

Lemma land_63 x : Z.land x 0x3F = x mod 64.
Proof. exact (land_low x 6 ltac:(lia)). Qed.
Lemma land_31 x : Z.land x 0x1F = x mod 32.
Proof. exact (land_low x 5 ltac:(lia)). Qed.
Lemma land_15 x : Z.land x 0x0F = x mod 16.
Proof. exact (land_low x 4 ltac:(lia)). Qed.
Lemma land_7 x : Z.land x 0x07 = x mod 8.
Proof. exact (land_low x 3 ltac:(lia)). Qed.

Lemma lor_C0 x : 0 <= x < 64 -> Z.lor 0xC0 x = 192 + x.
Proof. intros H. exact (lor_shiftl_add 3 x 6 ltac:(lia) H). Qed.
Lemma lor_80 x : 0 <= x < 64 -> Z.lor 0x80 x = 128 + x.
Proof. intros H. exact (lor_shiftl_add 2 x 6 ltac:(lia) H). Qed.
Lemma lor_E0 x : 0 <= x < 16 -> Z.lor 0xE0 x = 224 + x.
Proof. intros H. exact (lor_shiftl_add 14 x 4 ltac:(lia) H). Qed.
Lemma lor_F0 x : 0 <= x < 8 -> Z.lor 0xF0 x = 240 + x.
Proof. intros H. exact (lor_shiftl_add 30 x 3 ltac:(lia) H). Qed.
Lemma lor_acc cp x : 0 <= x < 64 -> Z.lor (Z.shiftl cp 6) x = cp * 64 + x.
Proof. intros H. exact (lor_shiftl_add cp x 6 ltac:(lia) H). Qed.

Lemma in_range_true lo hi b : lo <= b <= hi -> in_range lo hi b = true.
Proof.
  unfold in_range. intros H.
  apply andb_true_intro. split; apply Z.leb_le; lia.
Qed.

Lemma in_range_false lo hi b : b < lo \/ hi < b -> in_range lo hi b = false.
Proof.
  unfold in_range. intros [H | H].
  - replace (lo <=? b) with false by (symmetry; apply Z.leb_gt; lia).
    reflexivity.
  - replace (b <=? hi) with false by (symmetry; apply Z.leb_gt; lia).
    apply andb_false_r.
Qed.

Ltac arith := Z.div_mod_to_equations; lia.

(** Settle the range and equality tests of the decoder on a byte given
    by an arithmetic expression; split on an equality that depends on
    the code point. *)
Ltac decide_tests :=
  repeat match goal with
    | |- context [in_range ?lo ?hi ?b] =>
        first [ rewrite (in_range_true lo hi b) by arith
              | rewrite (in_range_false lo hi b) by arith ]
    | |- context [?a =? ?b] =>
        first [ replace (a =? b) with true
                  by (symmetry; apply Z.eqb_eq; arith)
              | replace (a =? b) with false
                  by (symmetry; apply Z.eqb_neq; arith)
              | destruct (Z.eqb_spec a b) ]
    end.

Lemma scalar_bounds c :
  is_scalar c = true -> 0 <= c <= 0x10FFFF /\ (c < 0xD800 \/ 0xDFFF < c).
Proof.
  unfold is_scalar, is_surrogate, in_range. intros H.
  apply andb_prop in H as [H1 H2]. apply andb_prop in H1 as [H0 H1].
  apply Z.leb_le in H0, H1. split; [lia |].
  apply negb_true_iff, andb_false_iff in H2 as [H2 | H2];
    apply Z.leb_gt in H2; lia.
Qed.

Lemma decode_cons st b rest :
  utf8_decode_from st (b :: rest)
  = let '(out, st') := utf8_step st b in out ++ utf8_decode_from st' rest.
Proof. reflexivity. Qed.

Ltac feed_byte :=
  rewrite decode_cons; unfold utf8_step, utf8_lead;
  decide_tests; cbv beta iota zeta.

(** The decoder reads back the encoding of one scalar value. *)
Lemma decode_encode_cp c rest :
  is_scalar c = true ->
  utf8_decode_from Idle (utf8_encode_cp c ++ rest)
  = c :: utf8_decode_from Idle rest.
Proof.
  intros Hs. apply scalar_bounds in Hs as [Hc Hns].
  unfold utf8_encode_cp.
  destruct (Z.ltb_spec c 0x80) as [H1 | H1].
  { cbn [app]. feed_byte. reflexivity. }
  destruct (Z.ltb_spec c 0x800) as [H2 | H2].
  { rewrite !Z.shiftr_div_pow2, !land_63 by lia.
    rewrite lor_C0, lor_80 by arith.
    cbn [app]. feed_byte. feed_byte.
    rewrite land_31, land_63, lor_acc by arith.
    cbn [app]. f_equal. arith. }
  replace (is_surrogate c) with false
    by (symmetry; apply in_range_false; lia).
  destruct (Z.ltb_spec c 0x10000) as [H3 | H3].
  { rewrite !Z.shiftr_div_pow2, !land_63 by lia.
    rewrite lor_E0, !lor_80 by arith.
    cbn [app]. feed_byte; feed_byte; feed_byte;
      rewrite land_15, !land_63, !lor_acc by arith;
      cbn [app]; f_equal; arith. }
  rewrite !Z.shiftr_div_pow2, !land_63 by lia.
  rewrite lor_F0, !lor_80 by arith.
  cbn [app]. feed_byte; feed_byte; feed_byte; feed_byte;
    rewrite land_7, !land_63, !lor_acc by arith;
    cbn [app]; f_equal; arith.
Qed.

(** Decoding the UTF-8 encoding of a well-formed text gives it back. *)
Lemma decode_encode text :
  forallb is_scalar text = true -> utf8_decode (utf8_encode text) = text.
Proof.
  unfold utf8_decode. induction text as [| c text IH]; intros H.
  - reflexivity.
  - cbn [forallb] in H. apply andb_prop in H as [Hc Ht].
    cbn [utf8_encode flat_map]. rewrite decode_encode_cp by exact Hc.
    f_equal. apply IH, Ht.
Qed.

End TextFacts.

(* ===================================================================== *)
(** ** Facts about the pipeline                                           *)
(* ===================================================================== *)

Module AppFacts.
Import Text JS Express N3 App TextFacts.

Lemma req_get_session req :
  req_get req "Mu-Session-Id" = headers req !! "mu-session-id".
Proof. reflexivity. Qed.

Lemma req_get_content_type req :
  req_get req "Content-Type" = headers req !! "content-type".
Proof. reflexivity. Qed.

(** The proxy starts from the headers of the incoming request. *)
Lemma outgoing_content_type req :
  getHeader (outgoing req) "Content-Type" = req_get req "Content-Type".
Proof.
  rewrite req_get_content_type. unfold getHeader, outgoing.
  cbn [pr_headers].
  change (toLowerCase "Content-Type") with "content-type".
  rewrite lookup_fmap.
  destruct (match headers req !! "connection" with
            | Some c => upgradeHeader_test c
            | None => false
            end);
    [| rewrite lookup_insert_ne by discriminate];
    destruct (headers req !! "content-type"); reflexivity.
Qed.

(** A request that passes the checks carries a non-empty session header. *)
Lemma valid_has_session req :
  ensureSparqlParams req = Normal tt ->
  exists s, req_get req "Mu-Session-Id" = Some s /\ s <> "".
Proof.
  unfold ensureSparqlParams, session_header_missing. intros H.
  destruct (method_dispatch req); [| discriminate | discriminate].
  destruct (req_get req "Mu-Session-Id") as [s |]; [| discriminate].
  exists s. split; [reflexivity |].
  destruct (bool_decide_reflect (s = "")); [discriminate | assumption].
Qed.

(** The shape error is reported whatever the session header is. *)
Lemma shape_error_first req e :
  method_dispatch req = Throw e -> ensureSparqlParams req = Throw e.
Proof. unfold ensureSparqlParams. intros ->. reflexivity. Qed.

Lemma session_checked_second req :
  method_dispatch req = Normal tt ->
  session_header_missing req = true ->
  ensureSparqlParams req = Throw (error_with_status 401 MSG_SESSION).
Proof. unfold ensureSparqlParams. intros -> ->. reflexivity. Qed.

Lemma dispatch_post req :
  method req = "POST" -> method_dispatch req = ensurePOSTSparqlParams req.
Proof. unfold method_dispatch. intros ->. reflexivity. Qed.

Lemma dispatch_get req :
  method req = "GET" -> method_dispatch req = ensureGETSparqlParams req.
Proof. unfold method_dispatch. intros ->. reflexivity. Qed.

Lemma regex_test_some literal ct :
  regex_test literal (Some ct) = contains literal ct.
Proof. reflexivity. Qed.

(** The three ways the Content-Type of a POST is told apart. *)
Lemma post_form req ct :
  req_get req "Content-Type" = Some ct ->
  has_substring FORM_TYPE ct ->
  ensurePOSTSparqlParams req = form_shape_check req.
Proof.
  intros Hct Hsub. unfold ensurePOSTSparqlParams.
  rewrite Hct, regex_test_some.
  apply contains_spec in Hsub. rewrite Hsub. reflexivity.
Qed.

Lemma post_raw req ct :
  req_get req "Content-Type" = Some ct ->
  has_substring SPARQL_TYPE ct ->
  ~ has_substring FORM_TYPE ct ->
  ensurePOSTSparqlParams req = raw_shape_check req.
Proof.
  intros Hct Hsub Hnot. unfold ensurePOSTSparqlParams.
  rewrite Hct, !regex_test_some.
  apply contains_spec in Hsub. apply contains_false in Hnot.
  rewrite Hsub, Hnot. reflexivity.
Qed.

Lemma post_without_type req :
  req_get req "Content-Type" = None ->
  ensurePOSTSparqlParams req
  = Throw (error_with_status 400 MSG_CONTENT_TYPE).
Proof.
  intros Hct. unfold ensurePOSTSparqlParams. rewrite Hct. reflexivity.
Qed.

(** No error of [ensureGETSparqlParams] has a [status]. *)
Lemma get_error_without_status req e :
  ensureGETSparqlParams req = Throw e -> err_status e = None.
Proof.
  unfold ensureGETSparqlParams.
  destruct (negb (truthy (default JUndefined (query req !! "query")))).
  - intros [= <-]. reflexivity.
  - destruct (body req); cbn [Object_keys_length];
      try (intros [= <-]; reflexivity);
      match goal with
      | |- context [negb (?n =? 0)] => destruct (negb (n =? 0))
      end;
      intros [= <-] || discriminate; reflexivity.
Qed.

Lemma get_malformed_throws req :
  truthy (default JUndefined (query req !! "query")) = false
  \/ (exists n, Object_keys_length (body req) = Normal n /\ n <> 0) ->
  exists e, ensureGETSparqlParams req = Throw e.
Proof.
  unfold ensureGETSparqlParams. intros [Hq | (n & Hn & Hne)].
  - rewrite Hq. eauto.
  - destruct (negb (truthy (default JUndefined (query req !! "query"))));
      [eauto |].
    rewrite Hn. apply Z.eqb_neq in Hne. rewrite Hne. eauto.
Qed.

(** The checks of [app.js] throw Error objects only. *)
Lemma validation_throws_objects req v :
  ensureSparqlParams req <> ThrowValue v.
Proof.
  unfold ensureSparqlParams, method_dispatch, ensurePOSTSparqlParams,
    form_shape_check, raw_shape_check, method_toString,
    ensureGETSparqlParams, Object_keys_length.
  repeat match goal with
    | |- context [if ?c then _ else _] => destruct c
    | |- context [match trim ?t with _ => _ end] => destruct (trim t)
    | |- context [match body ?r with _ => _ end] => destruct (body r)
    end; discriminate.
Qed.

Section Runs.
Variable isAuthorized : option string -> completion jsval.
Variable fixRequestBody : proxyReq -> request -> proxyReq.

Lemma app_invalid req e :
  ensureSparqlParams req = Throw e ->
  app isAuthorized fixRequestBody req = ([], render (errorHandler e)).
Proof.
  intros H. unfold app, checkingMiddleware, lift, bind.
  rewrite H. reflexivity.
Qed.

Lemma app_rejected req e :
  ensureSparqlParams req = Normal tt ->
  isAuthorized (req_get req "Mu-Session-Id") = Throw e ->
  app isAuthorized fixRequestBody req
  = ([CallIsAuthorized (req_get req "Mu-Session-Id")],
     render (errorHandler e)).
Proof.
  intros Hv Ha.
  unfold app, checkingMiddleware, lift, bind, ensureAuthorized,
    call_isAuthorized, bind.
  rewrite Hv. cbn [N3.value N3.namedNode]. rewrite Ha. reflexivity.
Qed.

(** A rejection with a value that is not an object is left to [next]. *)
Lemma app_rejected_value req v :
  ensureSparqlParams req = Normal tt ->
  isAuthorized (req_get req "Mu-Session-Id") = ThrowValue v ->
  app isAuthorized fixRequestBody req
  = match next_with v with
    | Continue =>
        proxyStage fixRequestBody
          [CallIsAuthorized (req_get req "Mu-Session-Id")] req
    | ExitRouter =>
        ([CallIsAuthorized (req_get req "Mu-Session-Id")], LeftRouter)
    | ToErrorHandler =>
        ([CallIsAuthorized (req_get req "Mu-Session-Id")],
         Responded errorHandler_primitive)
    end.
Proof.
  intros Hv Ha.
  unfold app, checkingMiddleware, lift, bind, ensureAuthorized,
    call_isAuthorized, bind.
  rewrite Hv. cbn [N3.value N3.namedNode]. rewrite Ha. reflexivity.
Qed.

Lemma app_denied req v :
  ensureSparqlParams req = Normal tt ->
  isAuthorized (req_get req "Mu-Session-Id") = Normal v ->
  truthy v = false ->
  app isAuthorized fixRequestBody req
  = ([CallIsAuthorized (req_get req "Mu-Session-Id")],
     Responded {| res_status := 403; res_message := MSG_FORBIDDEN |}).
Proof.
  intros Hv Ha Ht.
  unfold app, checkingMiddleware, lift, bind, ensureAuthorized,
    call_isAuthorized, bind.
  rewrite Hv. cbn [N3.value N3.namedNode]. rewrite Ha, Ht. reflexivity.
Qed.

Lemma app_allowed req v :
  ensureSparqlParams req = Normal tt ->
  isAuthorized (req_get req "Mu-Session-Id") = Normal v ->
  truthy v = true ->
  app isAuthorized fixRequestBody req
  = if mount_matches "/sparql" (path req) then
      ([CallIsAuthorized (req_get req "Mu-Session-Id"); CallProxy],
       match onProxyReq fixRequestBody (outgoing req) req with
       | Normal p => Proxied p
       | Throw e => ProxyHookThrew e
       | ThrowValue w => ProxyHookThrewValue w
       end)
    else ([CallIsAuthorized (req_get req "Mu-Session-Id")], NotRouted).
Proof.
  intros Hv Ha Ht.
  unfold app, checkingMiddleware, lift, bind, ensureAuthorized,
    call_isAuthorized, bind.
  rewrite Hv. cbn [N3.value N3.namedNode]. rewrite Ha, Ht.
  cbn [negb ret]. unfold proxyStage.
  destruct (mount_matches "/sparql" (path req)); reflexivity.
Qed.

(** The ways a run can go, by the result of the checks and of the
    predicate. *)
Lemma app_cases req :
  (exists e, ensureSparqlParams req = Throw e
             /\ app isAuthorized fixRequestBody req
                = ([], render (errorHandler e)))
  \/ (exists e, ensureSparqlParams req = Normal tt
             /\ isAuthorized (req_get req "Mu-Session-Id") = Throw e
             /\ app isAuthorized fixRequestBody req
                = ([CallIsAuthorized (req_get req "Mu-Session-Id")],
                   render (errorHandler e)))
  \/ (exists v, ensureSparqlParams req = Normal tt
             /\ isAuthorized (req_get req "Mu-Session-Id") = Normal v
             /\ truthy v = false
             /\ app isAuthorized fixRequestBody req
                = ([CallIsAuthorized (req_get req "Mu-Session-Id")],
                   Responded {| res_status := 403;
                                res_message := MSG_FORBIDDEN |}))
  \/ (exists v, ensureSparqlParams req = Normal tt
             /\ isAuthorized (req_get req "Mu-Session-Id") = Normal v
             /\ truthy v = true
             /\ app isAuthorized fixRequestBody req
                = proxyStage fixRequestBody
                    [CallIsAuthorized (req_get req "Mu-Session-Id")] req)
  \/ (exists w, ensureSparqlParams req = Normal tt
             /\ isAuthorized (req_get req "Mu-Session-Id") = ThrowValue w
             /\ app isAuthorized fixRequestBody req
                = match next_with w with
                  | Continue =>
                      proxyStage fixRequestBody
                        [CallIsAuthorized (req_get req "Mu-Session-Id")] req
                  | ExitRouter =>
                      ([CallIsAuthorized (req_get req "Mu-Session-Id")],
                       LeftRouter)
                  | ToErrorHandler =>
                      ([CallIsAuthorized (req_get req "Mu-Session-Id")],
                       Responded errorHandler_primitive)
                  end).
Proof.
  destruct (ensureSparqlParams req) as [[] | e | w] eqn:Hv.
  - destruct (isAuthorized (req_get req "Mu-Session-Id")) as [v | e | w]
      eqn:Ha.
    + destruct (truthy v) eqn:Ht.
      * right; right; right; left. exists v.
        repeat split; try assumption.
        rewrite (app_allowed req v Hv Ha Ht). reflexivity.
      * right; right; left. exists v. eauto using app_denied.
    + right; left. exists e. eauto using app_rejected.
    + right; right; right; right. exists w. eauto using app_rejected_value.
  - left. exists e. eauto using app_invalid.
  - exfalso. exact (validation_throws_objects req w Hv).
Qed.

(** On a request that passes the checks, the middleware ends as the
    predicate, applied to the session header, makes it end. *)
Lemma checking_valid req :
  ensureSparqlParams req = Normal tt ->
  checkingMiddleware isAuthorized req
  = ([CallIsAuthorized (req_get req "Mu-Session-Id")],
     match isAuthorized (req_get req "Mu-Session-Id") with
     | Normal v =>
         if truthy v then Normal tt
         else Throw (error_with_status 403 MSG_FORBIDDEN)
     | Throw e => Throw e
     | ThrowValue w => ThrowValue w
     end).
Proof.
  intros Hv.
  unfold checkingMiddleware, lift, bind, ensureAuthorized,
    call_isAuthorized, bind.
  rewrite Hv. cbn [N3.value N3.namedNode].
  destruct (isAuthorized (req_get req "Mu-Session-Id")) as [v | e | w];
    [destruct (truthy v) |..]; reflexivity.
Qed.

(** The calls of the proxy stage: those before it, and the proxy for a
    path under the mount. *)
Lemma proxyStage_calls t req :
  fst (proxyStage fixRequestBody t req)
  = if mount_matches "/sparql" (path req) then t ++ [CallProxy] else t.
Proof.
  unfold proxyStage. destruct (mount_matches "/sparql" (path req));
    reflexivity.
Qed.

Lemma proxyStage_proxied t req p :
  snd (proxyStage fixRequestBody t req) = Proxied p ->
  onProxyReq fixRequestBody (outgoing req) req = Normal p.
Proof.
  unfold proxyStage. destruct (mount_matches "/sparql" (path req));
    cbn [snd]; [| discriminate].
  destruct (onProxyReq fixRequestBody (outgoing req) req);
    try discriminate. congruence.
Qed.

(** A request the proxy took over went through the hook, after the
    checks. *)
Lemma proxied_inv req p :
  snd (app isAuthorized fixRequestBody req) = Proxied p ->
  ensureSparqlParams req = Normal tt
  /\ onProxyReq fixRequestBody (outgoing req) req = Normal p.
Proof.
  intros Hp.
  destruct (app_cases req)
    as [(e & _ & H) | [(e & _ & _ & H) | [(v & _ & _ & _ & H)
       | [(v & Hv & _ & _ & H) | (w & Hv & _ & H)]]]];
    rewrite H in Hp.
  - destruct (errorHandler e); discriminate.
  - destruct (errorHandler e); discriminate.
  - discriminate.
  - split; [exact Hv | exact (proxyStage_proxied _ req p Hp)].
  - split; [exact Hv |].
    destruct (next_with w); try discriminate.
    exact (proxyStage_proxied _ req p Hp).
Qed.

(** What the hook does with a Buffer when the Content-Type names the
    raw type: the length of the Buffer goes in Content-Length, and the
    Buffer is written as the string it decodes to. *)
Lemma onProxyReq_raw req ct bytes :
  req_get req "Content-Type" = Some ct ->
  has_substring SPARQL_TYPE ct ->
  body req = JBuffer bytes ->
  onProxyReq fixRequestBody (outgoing req) req
  = Normal (write (setHeader (outgoing req) "Content-Length"
                     (HNum (Z.of_nat (List.length bytes))))
              (utf8_decode bytes)).
Proof.
  intros Hct Hsub Hb. unfold onProxyReq.
  rewrite Hb, outgoing_content_type, Hct, regex_test_some.
  apply contains_spec in Hsub. rewrite Hsub. reflexivity.
Qed.

End Runs.

End AppFacts.

(* ===================================================================== *)
(** ** The claims                                                         *)
(* ===================================================================== *)

Import Text JS Express N3 App TextFacts AppFacts Samples.

Section Claims.

Variable isAuthorized : option string -> completion jsval.
Variable fixRequestBody : proxyReq -> request -> proxyReq.

#[local] Abbreviation run := (app isAuthorized fixRequestBody).
#[local] Abbreviation session_of req := (req_get req "Mu-Session-Id").

(** Every GET request that fails its shape check is answered with 500:
    the errors of [ensureGETSparqlParams] are thrown without a [status],
    and the error handler falls back to 500. *)
Lemma get_shape_error_answers_500 req e :
  method req = "GET" ->
  ensureGETSparqlParams req = Throw e ->
  run req = ([], Responded {| res_status := 500;
                              res_message := err_message e |}).
Proof.
  intros Hm He.
  rewrite (app_invalid _ _ req e).
  - unfold render, errorHandler, status_or_500.
    rewrite (get_error_without_status req e He). reflexivity.
  - apply shape_error_first. rewrite (dispatch_get req Hm). exact He.
Qed.

(** In the words of the spec: a GET without a non-empty [query] URL
    parameter, or with a body that has keys, is answered with 500. *)
Lemma get_malformed_answers_500 req :
  method req = "GET" ->
  truthy (default JUndefined (query req !! "query")) = false
  \/ (exists n, Object_keys_length (body req) = Normal n /\ n <> 0) ->
  status_of (snd (run req)) = Some 500.
Proof.
  intros Hm Hbad.
  destruct (get_malformed_throws req Hbad) as [e He].
  rewrite (get_shape_error_answers_500 req e Hm He). reflexivity.
Qed.

(** A request with a well-formed shape and no session header is answered
    with 401, and nothing is called. *)
Lemma missing_session_answers_401 req :
  method_dispatch req = Normal tt ->
  session_header_missing req = true ->
  run req = ([], Responded {| res_status := 401;
                              res_message := MSG_SESSION |}).
Proof.
  intros Hd Hs. rewrite (app_invalid _ _ req _ (session_checked_second _ Hd Hs)).
  reflexivity.
Qed.

(** C1 (the code departs from the claim): a GET request without a [query]
    URL parameter, and a GET request with a [query] parameter and a
    non-empty body, are both rejected by validation, but the answer
    carries status 500, not the 400 the claim states. *)
Theorem C1_get_shape_errors_answer_500 :
  run get_without_query
  = ([], Responded {| res_status := 500; res_message := MSG_GET_QUERY |})
  /\ run get_with_body
     = ([], Responded {| res_status := 500; res_message := MSG_GET_BODY |}).
Proof.
  split.
  - apply (get_shape_error_answers_500 get_without_query
             (plain_error MSG_GET_QUERY)); reflexivity.
  - apply (get_shape_error_answers_500 get_with_body
             (plain_error MSG_GET_BODY)); reflexivity.
Qed.

(** C2 (the code departs from the claim): the shape check does run
    before the session check, but a GET request with a non-empty body
    and no session header is answered with 500, not with the shape
    error's 400. *)
Theorem C2_get_with_body_and_no_session_answers_500 :
  session_header_missing get_with_body_no_session = true
  /\ method_dispatch get_with_body_no_session
     = Throw (plain_error MSG_GET_BODY)
  /\ run get_with_body_no_session
     = ([], Responded {| res_status := 500; res_message := MSG_GET_BODY |}).
Proof.
  split; [reflexivity |]. split; [reflexivity |].
  apply (app_invalid _ _ get_with_body_no_session (plain_error MSG_GET_BODY)).
  reflexivity.
Qed.


(** The proxy is called only for a request that passed validation and
    for which the predicate returned a truthy value or rejected with a
    value that [next] does not take for an error. *)
Lemma proxy_call_needs_validation req :
  upstream_contacted (fst (run req)) = true ->
  ensureSparqlParams req = Normal tt
  /\ ((exists v, isAuthorized (session_of req) = Normal v
                 /\ truthy v = true)
      \/ (exists w, isAuthorized (session_of req) = ThrowValue w
                    /\ next_with w = Continue)).
Proof.
  intros Hc.
  destruct (app_cases isAuthorized fixRequestBody req)
    as [(e & _ & H) | [(e & _ & _ & H) | [(v & _ & _ & _ & H)
       | [(v & Hv & Ha & Ht & _) | (w & Hv & Ha & H)]]]].
  - rewrite H in Hc. discriminate.
  - rewrite H in Hc. discriminate.
  - rewrite H in Hc. discriminate.
  - split; [exact Hv |]. left. eauto.
  - split; [exact Hv |]. right. exists w. split; [exact Ha |].
    rewrite H in Hc. destruct (next_with w); [reflexivity | |]; discriminate.
Qed.

(** A failure of validation, an error object raised by the predicate and
    a falsy result each end without a call of the proxy. *)
Lemma failures_do_not_reach_the_proxy req :
  (forall e, ensureSparqlParams req = Throw e ->
     upstream_contacted (fst (run req)) = false)
  /\ (forall e, ensureSparqlParams req = Normal tt ->
        isAuthorized (session_of req) = Throw e ->
        upstream_contacted (fst (run req)) = false)
  /\ (forall v, ensureSparqlParams req = Normal tt ->
        isAuthorized (session_of req) = Normal v ->
        truthy v = false ->
        upstream_contacted (fst (run req)) = false).
Proof.
  split; [| split].
  - intros e He. rewrite (app_invalid _ _ req e He). reflexivity.
  - intros e Hv Ha. rewrite (app_rejected _ _ req e Hv Ha). reflexivity.
  - intros v Hv Ha Ht. rewrite (app_denied _ _ req v Hv Ha Ht). reflexivity.
Qed.

(** C4 (the code departs from the claim): a request that passes
    validation and whose predicate rejects without a reason is handed to
    the proxy, although the predicate returned no truthy value: [next] is
    called with [undefined], which is its call for no error. *)
Theorem C4_rejection_without_reason_is_forwarded :
  ensureSparqlParams raw_post = Normal tt
  /\ rejects_with_nothing (req_get raw_post "Mu-Session-Id")
     = ThrowValue PUndefined
  /\ app rejects_with_nothing fixRequestBody raw_post
     = ([CallIsAuthorized (Some SESSION); CallProxy],
        Proxied raw_post_outgoing).
Proof.
  split; [vm_compute; reflexivity |]. split; [reflexivity |].
  vm_compute. reflexivity.
Qed.

(** C5: a request that passes validation and for whose session the
    predicate returns a falsy value is answered with 403, and the proxy
    is not called. *)
Theorem C5_falsy_predicate_answers_403 req v :
  ensureSparqlParams req = Normal tt ->
  isAuthorized (session_of req) = Normal v ->
  truthy v = false ->
  run req = ([CallIsAuthorized (session_of req)],
             Responded {| res_status := 403; res_message := MSG_FORBIDDEN |})
  /\ status_of (snd (run req)) = Some 403
  /\ upstream_contacted (fst (run req)) = false.
Proof.
  intros Hv Ha Ht. rewrite (app_denied _ _ req v Hv Ha Ht).
  repeat split.
Qed.

(** C6: a POST whose Content-Type contains the form type and whose
    decoded body has no [query] field, or an empty one, is answered with
    400; the predicate is not evaluated and the proxy is not called. *)
Theorem C6_form_without_query_answers_400 req ct props :
  method req = "POST" ->
  req_get req "Content-Type" = Some ct ->
  has_substring FORM_TYPE ct ->
  body req = JObj props ->
  props !! "query" = None \/ props !! "query" = Some (JStr []) ->
  run req = ([], Responded {| res_status := 400; res_message := MSG_FORM |})
  /\ status_of (snd (run req)) = Some 400
  /\ authorization_evaluated (fst (run req)) = false
  /\ upstream_contacted (fst (run req)) = false.
Proof.
  intros Hm Hct Hsub Hb Hq.
  assert (He : ensureSparqlParams req
               = Throw (error_with_status 400 MSG_FORM)).
  { apply shape_error_first.
    rewrite (dispatch_post req Hm), (post_form req ct Hct Hsub).
    unfold form_shape_check, optional_member. rewrite Hb.
    cbn [default from_option].
    destruct Hq as [-> | ->]; reflexivity. }
  rewrite (app_invalid _ _ req _ He). repeat split.
Qed.

(** C7: a request whose method is neither GET nor POST fails validation
    with status 401 and the message of the method error. *)
Theorem C7_other_method_answers_401 req :
  method req <> "GET" ->
  method req <> "POST" ->
  ensureSparqlParams req = Throw (error_with_status 401 MSG_METHOD)
  /\ run req = ([], Responded {| res_status := 401;
                                 res_message := MSG_METHOD |}).
Proof.
  intros Hg Hp.
  assert (He : ensureSparqlParams req
               = Throw (error_with_status 401 MSG_METHOD)).
  { apply shape_error_first. unfold method_dispatch.
    rewrite !bool_decide_eq_false_2 by assumption. reflexivity. }
  split; [exact He |]. rewrite (app_invalid _ _ req _ He). reflexivity.
Qed.

(** A raw body that is forwarded goes out with the length of the Buffer
    as Content-Length and with the text of the Buffer written. *)
Lemma raw_body_forwarded req ct bytes p :
  req_get req "Content-Type" = Some ct ->
  has_substring SPARQL_TYPE ct ->
  body req = JBuffer bytes ->
  snd (run req) = Proxied p ->
  pr_headers p !! "content-length"
  = Some (HNum (Z.of_nat (List.length bytes)))
  /\ pr_written p = utf8_encode (utf8_decode bytes).
Proof.
  intros Hct Hsub Hb Hp.
  apply proxied_inv in Hp as [_ Hp].
  rewrite (onProxyReq_raw _ req ct bytes Hct Hsub Hb) in Hp.
  injection Hp as <-.
  split.
  - cbn [write setHeader pr_headers].
    change (toLowerCase "Content-Length") with "content-length".
    apply lookup_insert_eq.
  - reflexivity.
Qed.

(** C8 (the code departs from the claim): a raw body that is not
    well-formed UTF-8, the single byte FF, is forwarded with Content-Length
    1, the length of the body, and with the three bytes EF BF BD written,
    not the byte of the body. *)
Theorem C8_not_utf8_body_is_rewritten :
  body raw_post_not_utf8 = JBuffer [0xFF]
  /\ match snd (app allow_all fixRequestBody raw_post_not_utf8) with
     | Proxied p =>
         pr_headers p !! "content-length" = Some (HNum 1)
         /\ pr_written p = [0xEF; 0xBF; 0xBD]
         /\ pr_written p <> [0xFF]
     | _ => False
     end.
Proof.
  split; [reflexivity |]. vm_compute.
  split; [reflexivity |]. split; [reflexivity | discriminate].
Qed.

(** C9: for a request that passes validation, the predicate is applied
    to the very string held by the [Mu-Session-Id] header: the checking
    middleware calls it once, with that string, and ends as the result
    for that string makes it end; the run depends on the predicate through
    its result for that string only. *)
Theorem C9_predicate_applied_to_session_header req :
  ensureSparqlParams req = Normal tt ->
  exists s,
    headers req !! "mu-session-id" = Some s
    /\ checkingMiddleware isAuthorized req
       = ([CallIsAuthorized (Some s)],
          match isAuthorized (Some s) with
          | Normal v =>
              if truthy v then Normal tt
              else Throw (error_with_status 403 MSG_FORBIDDEN)
          | Throw e => Throw e
          | ThrowValue w => ThrowValue w
          end)
    /\ (forall other : option string -> completion jsval,
          other (Some s) = isAuthorized (Some s) ->
          app other fixRequestBody req = app isAuthorized fixRequestBody req).
Proof.
  intros Hv. destruct (valid_has_session req Hv) as (s & Hs & _).
  exists s. split; [rewrite <- req_get_session; exact Hs |]. split.
  - rewrite (checking_valid isAuthorized req Hv), Hs. reflexivity.
  - intros other Hsame. unfold app.
    rewrite (checking_valid other req Hv),
      (checking_valid isAuthorized req Hv), Hs, Hsame.
    reflexivity.
Qed.

(** C10, as amended: for a POST the Content-Type is told apart by
    substring tests, in this order: a value that contains the form type
    anywhere gets the form check; a value that contains the raw type
    anywhere and does not contain the form type gets the raw check; a
    request without Content-Type is answered with 400 and the message of
    the unsupported type. *)
Theorem C10_content_type_told_apart_by_substring req :
  method req = "POST" ->
  (forall ct, req_get req "Content-Type" = Some ct ->
     has_substring FORM_TYPE ct ->
     method_dispatch req = form_shape_check req)
  /\ (forall ct, req_get req "Content-Type" = Some ct ->
       has_substring SPARQL_TYPE ct ->
       ~ has_substring FORM_TYPE ct ->
       method_dispatch req = raw_shape_check req)
  /\ (req_get req "Content-Type" = None ->
       run req = ([], Responded {| res_status := 400;
                                   res_message := MSG_CONTENT_TYPE |})).
Proof.
  intros Hm. rewrite (dispatch_post req Hm). split; [| split].
  - intros ct Hct Hsub. exact (post_form req ct Hct Hsub).
  - intros ct Hct Hsub Hnot. exact (post_raw req ct Hct Hsub Hnot).
  - intros Hct.
    rewrite (app_invalid _ _ req (error_with_status 400 MSG_CONTENT_TYPE));
      [reflexivity |].
    apply shape_error_first.
    rewrite (dispatch_post req Hm). exact (post_without_type req Hct).
Qed.

End Claims.

(* ===================================================================== *)
(** ** The claims on the sample requests                                  *)
(* ===================================================================== *)



(** C5 on the sample raw POST with a predicate that denies. *)
Lemma C5_witness_denied :
  ensureSparqlParams raw_post = Normal tt
  /\ deny_all (req_get raw_post "Mu-Session-Id") = Normal (JBool false)
  /\ status_of (snd (app deny_all fix_untouched raw_post)) = Some 403
  /\ upstream_contacted (fst (app deny_all fix_untouched raw_post)) = false.
Proof.
  assert (Hv : ensureSparqlParams raw_post = Normal tt)
    by (vm_compute; reflexivity).
  split; [exact Hv |]. split; [reflexivity |].
  exact (proj2 (C5_falsy_predicate_answers_403 deny_all fix_untouched
                  raw_post (JBool false) Hv eq_refl eq_refl)).
Defined.

(** C6 on the sample form POST whose [query] field is empty. *)
Lemma C6_witness_empty_query :
  method form_post_empty_query = "POST"
  /\ has_substring FORM_TYPE "application/x-www-form-urlencoded"
  /\ status_of (snd (app allow_all fix_untouched form_post_empty_query))
     = Some 400
  /\ authorization_evaluated
       (fst (app allow_all fix_untouched form_post_empty_query)) = false
  /\ upstream_contacted
       (fst (app allow_all fix_untouched form_post_empty_query)) = false.
Proof.
  assert (Hsub : has_substring FORM_TYPE "application/x-www-form-urlencoded")
    by (exists EmptyString, EmptyString; reflexivity).
  split; [reflexivity |]. split; [exact Hsub |].
  exact (proj2 (C6_form_without_query_answers_400 allow_all fix_untouched
                  form_post_empty_query "application/x-www-form-urlencoded"
                  {[ "query" := JStr [] ]}
                  eq_refl eq_refl Hsub eq_refl (or_intror eq_refl))).
Defined.

(** C7 on the sample PUT. *)
Lemma C7_witness_put :
  method put_request <> "GET" /\ method put_request <> "POST"
  /\ app allow_all fix_untouched put_request
     = ([], Responded {| res_status := 401; res_message := MSG_METHOD |}).
Proof.
  assert (Hg : method put_request <> "GET") by discriminate.
  assert (Hp : method put_request <> "POST") by discriminate.
  split; [exact Hg |]. split; [exact Hp |].
  exact (proj2 (C7_other_method_answers_401 allow_all fix_untouched
                  put_request Hg Hp)).
Defined.

(** C9 on the sample raw POST. *)
Lemma C9_witness_session :
  ensureSparqlParams raw_post = Normal tt
  /\ exists s,
       headers raw_post !! "mu-session-id" = Some s
       /\ checkingMiddleware allow_all raw_post
          = ([CallIsAuthorized (Some s)],
             match allow_all (Some s) with
             | Normal v =>
                 if truthy v then Normal tt
                 else Throw (error_with_status 403 MSG_FORBIDDEN)
             | Throw e => Throw e
             | ThrowValue w => ThrowValue w
             end)
       /\ (forall other : option string -> completion jsval,
             other (Some s) = allow_all (Some s) ->
             app other fix_untouched raw_post
             = app allow_all fix_untouched raw_post).
Proof.
  assert (Hv : ensureSparqlParams raw_post = Normal tt)
    by (vm_compute; reflexivity).
  split; [exact Hv |].
  exact (C9_predicate_applied_to_session_header allow_all fix_untouched
           raw_post Hv).
Defined.

(** C10 on the sample raw POST whose Content-Type has a charset. *)
Lemma C10_witness_charset :
  method raw_post_charset = "POST"
  /\ has_substring SPARQL_TYPE "application/sparql-query; charset=utf-8"
  /\ ~ has_substring FORM_TYPE "application/sparql-query; charset=utf-8"
  /\ method_dispatch raw_post_charset = raw_shape_check raw_post_charset.
Proof.
  assert (Hsub : has_substring SPARQL_TYPE
                   "application/sparql-query; charset=utf-8")
    by (exists EmptyString, "; charset=utf-8"%string; reflexivity).
  assert (Hnot : ~ has_substring FORM_TYPE
                     "application/sparql-query; charset=utf-8")
    by (apply contains_false; vm_compute; reflexivity).
  split; [reflexivity |]. split; [exact Hsub |]. split; [exact Hnot |].
  exact (proj1 (proj2 (C10_content_type_told_apart_by_substring
                         allow_all fix_untouched raw_post_charset eq_refl))
           "application/sparql-query; charset=utf-8" eq_refl Hsub Hnot).
Defined.

(** The claim C10 fails for a Content-Type that contains the raw type and
    also mentions the form type: the form check is applied, and the raw
    query, which the raw check accepts, is refused with 400. *)
Lemma C10_counterexample_two_types :
  method raw_post_two_types = "POST"
  /\ req_get raw_post_two_types "Content-Type"
     = Some "application/sparql-query; note=application/x-www-form-urlencoded"
  /\ has_substring SPARQL_TYPE
       "application/sparql-query; note=application/x-www-form-urlencoded"
  /\ raw_shape_check raw_post_two_types = Normal tt
  /\ method_dispatch raw_post_two_types
     = Throw (error_with_status 400 MSG_FORM)
  /\ method_dispatch raw_post_two_types <> raw_shape_check raw_post_two_types.
Proof.
  split; [reflexivity |]. split; [reflexivity |].
  split; [exists EmptyString, "; note=application/x-www-form-urlencoded"%string;
          reflexivity |].
  assert (Hr : raw_shape_check raw_post_two_types = Normal tt)
    by (vm_compute; reflexivity).
  assert (Hd : method_dispatch raw_post_two_types
               = Throw (error_with_status 400 MSG_FORM))
    by (vm_compute; reflexivity).
  split; [exact Hr |]. split; [exact Hd |].
  rewrite Hr, Hd. discriminate.
Qed.

(* ===================================================================== *)
(** ** The scenarios of the README and of the spec                        *)
(* ===================================================================== *)

(** A raw query with its session, allowed by the predicate: the predicate
    is called with the session, then the proxy, and the query goes out
    with the Content-Length of its 35 bytes. *)
Example scenario_raw_post_allowed :
  app allow_all fix_untouched raw_post
  = ([CallIsAuthorized (Some SESSION); CallProxy], Proxied raw_post_outgoing)
  /\ pr_headers raw_post_outgoing !! "content-length" = Some (HNum 35)
  /\ pr_written raw_post_outgoing = utf8_encode SELECT.
Proof. vm_compute. repeat split. Qed.

(** The same request without its session header: 401, nothing called. *)
Example scenario_raw_post_without_session :
  app allow_all fix_untouched raw_post_no_session
  = ([], Responded {| res_status := 401; res_message := MSG_SESSION |}).
Proof. vm_compute. reflexivity. Qed.

(** A form with its query is handed to [fixRequestBody]. *)
Example scenario_form_post_allowed :
  app allow_all fix_untouched form_post
  = ([CallIsAuthorized (Some SESSION); CallProxy],
     Proxied (fix_untouched (outgoing form_post) form_post)).
Proof. vm_compute. reflexivity. Qed.

(** A POST without Content-Type: 400, nothing called. *)
Example scenario_post_without_content_type :
  app allow_all fix_untouched post_without_content_type
  = ([], Responded {| res_status := 400; res_message := MSG_CONTENT_TYPE |}).
Proof. vm_compute. reflexivity. Qed.

(** A request outside [/sparql] is checked and authorized like any other,
    and then left to the rest of the application. *)
Example scenario_other_path :
  app allow_all fix_untouched
    {| method := method raw_post; path := "/sparqlx";
       headers := headers raw_post; query := query raw_post;
       body := body raw_post |}
  = ([CallIsAuthorized (Some SESSION)], NotRouted).
Proof. vm_compute. reflexivity. Qed.

(* ===================================================================== *)
(** ** More facts: blank text, mount paths, validation errors             *)
(* ===================================================================== *)

Module MoreFacts.
Import Text JS Express N3 App TextFacts AppFacts.

Lemma trim_start_nil s :
  trim_start s = [] <-> forallb is_js_whitespace s = true.
Proof.
  induction s as [| c s IH]; cbn [trim_start forallb].
  - split; reflexivity.
  - destruct (is_js_whitespace c); cbn [andb].
    + exact IH.
    + split; discriminate.
Qed.

(** What [trim_start] leaves does not begin with white space. *)
Lemma trim_start_head s c rest :
  trim_start s = c :: rest -> is_js_whitespace c = false.
Proof.
  induction s as [| d s IH]; cbn [trim_start]; [discriminate |].
  destruct (is_js_whitespace d) eqn:Hd; [exact IH |].
  intros [= <- _]. exact Hd.
Qed.

Lemma forallb_rev {A} (f : A -> bool) l :
  forallb f (rev l) = forallb f l.
Proof.
  induction l as [| x l IH]; [reflexivity |].
  cbn [rev forallb]. rewrite forallb_app, IH. cbn [forallb].
  rewrite andb_true_r. apply andb_comm.
Qed.

(** [s.trim() === ''] says that [s] is white space throughout. *)
Lemma trim_nil s : trim s = [] <-> forallb is_js_whitespace s = true.
Proof.
  unfold trim. split.
  - intros H. apply (f_equal (@rev Z)) in H. rewrite rev_involutive in H.
    cbn [rev] in H. apply trim_start_nil in H. rewrite forallb_rev in H.
    destruct (trim_start s) as [| c rest] eqn:Ht.
    + apply trim_start_nil, Ht.
    + apply trim_start_head in Ht. cbn [forallb] in H.
      rewrite Ht in H. discriminate.
  - intros H. apply trim_start_nil in H. rewrite H. reflexivity.
Qed.

Lemma get_append_length (a b : string) :
  String.get (String.length a) (a +:+ b) = String.get 0 b.
Proof. induction a as [| c a IH]; [reflexivity | exact IH]. Qed.

(** The paths the middleware mounted at [/sparql] sees. *)
Lemma mount_sparql_spec p :
  mount_matches "/sparql" p = true
  <-> toLowerCase p = "/sparql"
      \/ exists rest, toLowerCase p = "/sparql/" +:+ rest.
Proof.
  unfold mount_matches.
  change (toLowerCase "/sparql") with "/sparql".
  split.
  - intros H. apply andb_prop in H as [Hp Hg].
    apply prefix_spec in Hp as [after Hp]. rewrite Hp in Hg |- *.
    rewrite get_append_length in Hg.
    destruct after as [| c after]; [left; reflexivity |].
    cbn [String.get] in Hg. apply bool_decide_eq_true in Hg as ->.
    right. exists after. reflexivity.
  - intros [-> | [rest ->]]; [reflexivity |].
    apply andb_true_intro. split.
    + apply prefix_spec. exists (String "/" rest). reflexivity.
    + reflexivity.
Qed.

(** A value whose conversion to a string throws is an object or holds
    one; the text [js_toString] gives for it is not blank. *)
Lemma toString_throws_text :
  forall v, toString_throws v = true ->
            forallb is_js_whitespace (js_toString v) = false.
Proof.
  fix IH 1. intros v.
  destruct v as [| | b | n | s | elems | props | bytes];
    try discriminate.
  - destruct elems as [| x [| y rest]].
    + discriminate.
    + pose proof (IH x) as IHx. intros Hx.
      change (toString_throws x || false = true) in Hx.
      rewrite orb_false_r in Hx. specialize (IHx Hx).
      destruct x; try discriminate; exact IHx.
    + intros _.
      change (js_toString (JArr (x :: y :: rest)))
        with (match x with
              | JUndefined | JNull => []
              | _ => js_toString x
              end ++ ustr "," ++ js_toString (JArr (y :: rest))).
      rewrite forallb_app. apply andb_false_iff. right. reflexivity.
  - intros _. reflexivity.
Qed.

(** The raw check throws its 400 for the blank texts. *)
Lemma raw_check_blank req :
  raw_shape_check req = Throw (error_with_status 400 MSG_RAW)
  <-> body req <> JUndefined /\ body req <> JNull
      /\ forallb is_js_whitespace (js_toString (body req)) = true.
Proof.
  assert (Hgen : forall text,
             match trim text with
             | [] => Throw (error_with_status 400 MSG_RAW)
             | _ :: _ => Normal tt
             end = Throw (error_with_status 400 MSG_RAW)
             <-> forallb is_js_whitespace text = true).
  { intros text. rewrite <- trim_nil.
    destruct (trim text); split; intros H; congruence. }
  unfold raw_shape_check, method_toString.
  destruct (body req) eqn:Hb; cbv beta iota;
    [ split; [discriminate | intros (H & _); congruence]
    | split; [discriminate | intros (_ & H & _); congruence]
    | .. ];
    match goal with
    | |- context [toString_throws ?v] =>
        destruct (toString_throws v) eqn:Ht
    end;
    try (rewrite Hgen; split;
         [intros H; repeat split; (discriminate || exact H)
         | intros (_ & _ & H); exact H]);
    (split; [discriminate |];
     intros (_ & _ & H);
     rewrite (toString_throws_text _ Ht) in H; discriminate).
Qed.

Lemma post_error_status req e :
  ensurePOSTSparqlParams req = Throw e ->
  err_status e = Some 400 \/ err_status e = None.
Proof.
  unfold ensurePOSTSparqlParams, form_shape_check, raw_shape_check,
    method_toString.
  repeat match goal with
    | |- context [if ?c then _ else _] => destruct c
    | |- context [match trim ?t with _ => _ end] => destruct (trim t)
    | |- context [match body ?r with _ => _ end] => destruct (body r)
    end;
    try discriminate; intros [= <-]; cbn; auto.
Qed.

(** The errors of validation carry 400, 401 or no status. *)
Lemma validation_error_status req e :
  ensureSparqlParams req = Throw e ->
  err_status e = Some 400 \/ err_status e = Some 401 \/ err_status e = None.
Proof.
  unfold ensureSparqlParams.
  destruct (method_dispatch req) as [[] | e0 | w] eqn:Hd.
  - destruct (session_header_missing req); [| discriminate].
    intros [= <-]. now right; left.
  - intros [= <-]. revert Hd. unfold method_dispatch.
    destruct (bool_decide (method req = "POST")).
    + intros Hd. destruct (post_error_status req e0 Hd); auto.
    + destruct (bool_decide (method req = "GET")).
      * intros Hd. right; right.
        exact (get_error_without_status req e0 Hd).
      * intros [= <-]. now right; left.
  - discriminate.
Qed.

End MoreFacts.

(* ===================================================================== *)
(** ** Further properties of the pipeline                                 *)
(* ===================================================================== *)

Import MoreFacts MoreSamples.

Section MoreProperties.

Variable isAuthorized : option string -> completion jsval.
Variable fixRequestBody : proxyReq -> request -> proxyReq.

#[local] Abbreviation run := (app isAuthorized fixRequestBody).
#[local] Abbreviation session_of req := (req_get req "Mu-Session-Id").

(** A POST that passes its shape check and carries a non-empty session
    header passes validation. *)
Lemma valid_post req sid :
  method req = "POST" ->
  ensurePOSTSparqlParams req = Normal tt ->
  headers req !! "mu-session-id" = Some sid ->
  sid <> "" ->
  ensureSparqlParams req = Normal tt /\ session_of req = Some sid.
Proof.
  intros Hm Hp Hs Hne. rewrite req_get_session. split; [| exact Hs].
  unfold ensureSparqlParams, session_header_missing.
  rewrite (dispatch_post req Hm), Hp, req_get_session, Hs.
  rewrite bool_decide_eq_false_2 by exact Hne. reflexivity.
Qed.

(** The hook hands a body to [fixRequestBody] when the Content-Type does
    not name the raw type. *)
Lemma onProxyReq_other req ct :
  truthy (body req) = true ->
  req_get req "Content-Type" = Some ct ->
  ~ has_substring SPARQL_TYPE ct ->
  onProxyReq fixRequestBody (outgoing req) req
  = Normal (fixRequestBody (outgoing req) req).
Proof.
  intros Ht Hct Hnot. unfold onProxyReq.
  rewrite Ht, outgoing_content_type, Hct, regex_test_some.
  apply contains_false in Hnot. rewrite Hnot. reflexivity.
Qed.

(** The form check accepts the objects with a truthy [query]. *)
Lemma form_check_accepts req :
  form_shape_check req = Normal tt
  <-> exists props v, body req = JObj props
                      /\ props !! "query" = Some v /\ truthy v = true.
Proof.
  unfold form_shape_check, optional_member. split.
  - destruct (body req) as [| | | | | | props |]; try discriminate.
    destruct (props !! "query") as [v |] eqn:Hq; [| discriminate].
    cbn [default from_option id]. destruct (truthy v) eqn:Hv;
      [| discriminate].
    intros _. exists props, v. auto.
  - intros (props & v & -> & -> & Hv). cbn [default from_option id].
    rewrite Hv. reflexivity.
Qed.

(** The raw check accepts a Buffer whose text is not blank. *)
Lemma raw_check_accepts_text req bytes :
  body req = JBuffer bytes ->
  forallb is_js_whitespace (utf8_decode bytes) = false ->
  raw_shape_check req = Normal tt.
Proof.
  intros Hb Hws. unfold raw_shape_check. rewrite Hb.
  cbn [method_toString js_toString toString_throws].
  destruct (trim (utf8_decode bytes)) eqn:Ht; [| reflexivity].
  apply trim_nil in Ht. congruence.
Qed.

(** X1: a request whose shape is accepted and whose [Mu-Session-Id] header
    is absent, or present and empty, is answered with 401; neither the
    predicate nor the proxy is called. *)
Theorem X1_missing_or_empty_session_answers_401 req :
  method_dispatch req = Normal tt ->
  headers req !! "mu-session-id" = None
  \/ headers req !! "mu-session-id" = Some "" ->
  run req = ([], Responded {| res_status := 401; res_message := MSG_SESSION |}).
Proof.
  intros Hd Hs.
  rewrite (app_invalid _ _ req (error_with_status 401 MSG_SESSION));
    [reflexivity |].
  apply session_checked_second; [exact Hd |].
  unfold session_header_missing. rewrite req_get_session.
  destruct Hs as [-> | ->]; reflexivity.
Qed.

(** X2: under a Content-Type that names the form type, the POST check
    accepts exactly the bodies that are objects with a truthy [query]
    property; every other body (a Buffer, a string, an object without
    [query] or with an empty one) gets the 400 of the form error. *)
Theorem X2_form_check_accepts_truthy_query req ct :
  req_get req "Content-Type" = Some ct ->
  has_substring FORM_TYPE ct ->
  (ensurePOSTSparqlParams req = Normal tt
   <-> exists props v, body req = JObj props
                       /\ props !! "query" = Some v /\ truthy v = true)
  /\ (ensurePOSTSparqlParams req = Normal tt
      \/ ensurePOSTSparqlParams req = Throw (error_with_status 400 MSG_FORM)).
Proof.
  intros Hct Hsub. rewrite (post_form req ct Hct Hsub). split.
  - apply form_check_accepts.
  - unfold form_shape_check. destruct (negb _); auto.
Qed.

(** X3: under a Content-Type that names the raw type and not the form
    type, the POST check throws the 400 of the raw error exactly when the
    body has a [toString] and its text is white space throughout (the
    empty Buffer included); a Buffer whose text has another character is
    accepted. *)
Theorem X3_raw_check_refuses_blank_text req ct :
  req_get req "Content-Type" = Some ct ->
  has_substring SPARQL_TYPE ct ->
  ~ has_substring FORM_TYPE ct ->
  (ensurePOSTSparqlParams req = Throw (error_with_status 400 MSG_RAW)
   <-> body req <> JUndefined /\ body req <> JNull
       /\ forallb is_js_whitespace (js_toString (body req)) = true)
  /\ (forall bytes, body req = JBuffer bytes ->
        forallb is_js_whitespace (utf8_decode bytes) = false ->
        ensurePOSTSparqlParams req = Normal tt).
Proof.
  intros Hct Hsub Hnot. rewrite (post_raw req ct Hct Hsub Hnot). split.
  - apply raw_check_blank.
  - intros bytes Hb Hws. exact (raw_check_accepts_text req bytes Hb Hws).
Qed.

(** X4: a POST whose Content-Type contains neither type as written in the
    source (the tests are case-sensitive) is answered with 400 and the
    message of the unsupported type; nothing is called. *)
Theorem X4_other_content_type_answers_400 req ct :
  method req = "POST" ->
  req_get req "Content-Type" = Some ct ->
  ~ has_substring FORM_TYPE ct ->
  ~ has_substring SPARQL_TYPE ct ->
  run req = ([], Responded {| res_status := 400;
                              res_message := MSG_CONTENT_TYPE |}).
Proof.
  intros Hm Hct Hf Hs.
  rewrite (app_invalid _ _ req (error_with_status 400 MSG_CONTENT_TYPE));
    [reflexivity |].
  apply shape_error_first. rewrite (dispatch_post req Hm).
  unfold ensurePOSTSparqlParams. rewrite Hct, !regex_test_some.
  apply contains_false in Hf, Hs. rewrite Hf, Hs. reflexivity.
Qed.

(** X5: whatever the request and the predicate, the calls of a run are
    none, or one call of the predicate with the session header, or that
    call followed by one call of the proxy: the predicate is never called
    twice, the proxy never twice and never before the predicate. *)
Theorem X5_calls_of_a_run req :
  fst (app isAuthorized fixRequestBody req) = []
  \/ fst (app isAuthorized fixRequestBody req)
     = [CallIsAuthorized (req_get req "Mu-Session-Id")]
  \/ fst (app isAuthorized fixRequestBody req)
     = [CallIsAuthorized (req_get req "Mu-Session-Id"); CallProxy].
Proof.
  destruct (app_cases isAuthorized fixRequestBody req)
    as [(e & _ & H) | [(e & _ & _ & H) | [(v & _ & _ & _ & H)
       | [(v & _ & _ & _ & H) | (w & _ & _ & H)]]]];
    rewrite H; try (cbn [fst]; auto; fail).
  - rewrite proxyStage_calls.
    destruct (mount_matches "/sparql" (path req)); auto.
  - destruct (next_with w); try (cbn [fst]; auto; fail).
    rewrite proxyStage_calls.
    destruct (mount_matches "/sparql" (path req)); auto.
Qed.

(** X6: the predicate is evaluated exactly for the requests that pass
    validation. *)
Theorem X6_predicate_evaluated_iff_valid req :
  authorization_evaluated (fst (run req)) = true
  <-> ensureSparqlParams req = Normal tt.
Proof.
  destruct (app_cases isAuthorized fixRequestBody req)
    as [(e & He & H) | [(e & Hv & _ & H) | [(v & Hv & _ & _ & H)
       | [(v & Hv & _ & _ & H) | (w & Hv & _ & H)]]]];
    rewrite H.
  - rewrite He. split; discriminate.
  - split; [intros _; exact Hv | reflexivity].
  - split; [intros _; exact Hv | reflexivity].
  - rewrite proxyStage_calls.
    destruct (mount_matches "/sparql" (path req));
      (split; [intros _; exact Hv | reflexivity]).
  - split; [intros _; exact Hv |]. intros _.
    destruct (next_with w); try reflexivity.
    rewrite proxyStage_calls.
    destruct (mount_matches "/sparql" (path req)); reflexivity.
Qed.

(** X7: an error that the checking middleware passes to the error
    handler, and that the predicate did not raise itself, is answered, and
    with status 400, 401, 403 or 500. *)
Theorem X7_statuses_of_checking_errors req t e :
  checkingMiddleware isAuthorized req = (t, Throw e) ->
  (forall e', isAuthorized (req_get req "Mu-Session-Id") <> Throw e') ->
  exists r,
    errorHandler e = Some r
    /\ res_message r = err_message e
    /\ (res_status r = 400 \/ res_status r = 401 \/ res_status r = 403
        \/ res_status r = 500).
Proof.
  intros Hc Hno.
  assert (Hans : forall s,
             err_status e = s ->
             s = Some 400 \/ s = Some 401 \/ s = Some 403 \/ s = None ->
             exists r,
               errorHandler e = Some r
               /\ res_message r = err_message e
               /\ (res_status r = 400 \/ res_status r = 401
                   \/ res_status r = 403 \/ res_status r = 500)).
  { intros s Hs Hcase. unfold errorHandler, status_or_500. rewrite Hs.
    destruct Hcase as [-> | [-> | [-> | ->]]];
      eexists; (split; [reflexivity |]); cbn; auto. }
  destruct (ensureSparqlParams req) as [[] | e0 | w] eqn:Hv.
  - rewrite (checking_valid isAuthorized req Hv) in Hc.
    destruct (isAuthorized (req_get req "Mu-Session-Id")) as [v | e1 | w]
      eqn:Ha.
    + destruct (truthy v); [discriminate |].
      injection Hc as _ <-. apply (Hans (Some 403)); auto.
    + exfalso. exact (Hno e1 eq_refl).
    + discriminate.
  - unfold checkingMiddleware, lift, bind in Hc. rewrite Hv in Hc.
    injection Hc as _ <-.
    apply (Hans (err_status e0)); [reflexivity |].
    destruct (validation_error_status req e0 Hv) as [-> | [-> | ->]]; auto.
  - exfalso. exact (validation_throws_objects req w Hv).
Qed.

End MoreProperties.

Section Forwarding.

Variable isAuthorized : option string -> completion jsval.
Variable fixRequestBody : proxyReq -> request -> proxyReq.

#[local] Abbreviation run := (app isAuthorized fixRequestBody).

(** X8: a form POST with a truthy [query] field, a non-empty session
    header and a truthy answer of the predicate, for a path under
    [/sparql], is forwarded: the predicate is called with the session,
    then the proxy, and the outgoing request is the one [fixRequestBody]
    makes (the Content-Type not naming the raw type). *)
Theorem X8_authorized_form_is_forwarded req ct props q sid a :
  method req = "POST" ->
  req_get req "Content-Type" = Some ct ->
  has_substring FORM_TYPE ct ->
  ~ has_substring SPARQL_TYPE ct ->
  body req = JObj props ->
  props !! "query" = Some q ->
  truthy q = true ->
  headers req !! "mu-session-id" = Some sid ->
  sid <> "" ->
  isAuthorized (Some sid) = Normal a ->
  truthy a = true ->
  mount_matches "/sparql" (path req) = true ->
  run req = ([CallIsAuthorized (Some sid); CallProxy],
             Proxied (fixRequestBody (outgoing req) req)).
Proof.
  intros Hm Hct Hf Hns Hb Hq Hqt Hs Hne Ha Hat Hmount.
  assert (Hp : ensurePOSTSparqlParams req = Normal tt).
  { rewrite (post_form req ct Hct Hf). apply form_check_accepts.
    exists props, q. auto. }
  destruct (valid_post req sid Hm Hp Hs Hne) as [Hv Hsid].
  rewrite <- Hsid in Ha.
  rewrite (app_allowed _ _ req a Hv Ha Hat), Hmount, Hsid.
  rewrite (onProxyReq_other _ req ct); [reflexivity | | exact Hct | exact Hns].
  rewrite Hb. reflexivity.
Qed.

(** X9: a raw POST whose Buffer holds more than white space, with a
    non-empty session header and a truthy answer of the predicate, for a
    path under [/sparql], is forwarded with Content-Length set to the
    length of the Buffer and the text of the Buffer written. *)
Theorem X9_authorized_raw_query_is_forwarded req ct bytes sid a :
  method req = "POST" ->
  req_get req "Content-Type" = Some ct ->
  has_substring SPARQL_TYPE ct ->
  ~ has_substring FORM_TYPE ct ->
  body req = JBuffer bytes ->
  forallb is_js_whitespace (utf8_decode bytes) = false ->
  headers req !! "mu-session-id" = Some sid ->
  sid <> "" ->
  isAuthorized (Some sid) = Normal a ->
  truthy a = true ->
  mount_matches "/sparql" (path req) = true ->
  run req = ([CallIsAuthorized (Some sid); CallProxy],
             Proxied (write (setHeader (outgoing req) "Content-Length"
                               (HNum (Z.of_nat (List.length bytes))))
                        (utf8_decode bytes))).
Proof.
  intros Hm Hct Hsub Hnf Hb Hws Hs Hne Ha Hat Hmount.
  assert (Hp : ensurePOSTSparqlParams req = Normal tt).
  { rewrite (post_raw req ct Hct Hsub Hnf).
    exact (raw_check_accepts_text req bytes Hb Hws). }
  destruct (valid_post req sid Hm Hp Hs Hne) as [Hv Hsid].
  rewrite <- Hsid in Ha.
  rewrite (app_allowed _ _ req a Hv Ha Hat), Hmount, Hsid.
  rewrite (onProxyReq_raw _ req ct bytes Hct Hsub Hb). reflexivity.
Qed.

(** X10: a raw POST whose body is a plain object and not a Buffer (as
    left by the body parsers when no body was sent), without a property of
    its own named [toString], passes validation, since the text of such an
    object is not blank; once authorized it reaches the proxy, where the
    hook throws the TypeError of [Buffer.byteLength] instead of building
    the outgoing request. *)
Theorem X10_object_body_fails_in_the_hook req ct props sid a :
  method req = "POST" ->
  req_get req "Content-Type" = Some ct ->
  has_substring SPARQL_TYPE ct ->
  ~ has_substring FORM_TYPE ct ->
  body req = JObj props ->
  props !! "toString" = None ->
  headers req !! "mu-session-id" = Some sid ->
  sid <> "" ->
  isAuthorized (Some sid) = Normal a ->
  truthy a = true ->
  mount_matches "/sparql" (path req) = true ->
  ensureSparqlParams req = Normal tt
  /\ exists e, run req = ([CallIsAuthorized (Some sid); CallProxy],
                          ProxyHookThrew e)
               /\ err_status e = None.
Proof.
  intros Hm Hct Hsub Hnf Hb Hts Hs Hne Ha Hat Hmount.
  assert (Hp : ensurePOSTSparqlParams req = Normal tt).
  { rewrite (post_raw req ct Hct Hsub Hnf).
    unfold raw_shape_check, method_toString. rewrite Hb.
    cbn [toString_throws]. rewrite Hts.
    rewrite bool_decide_eq_false_2 by (intros [? ?]; discriminate).
    vm_compute. reflexivity. }
  destruct (valid_post req sid Hm Hp Hs Hne) as [Hv Hsid].
  split; [exact Hv |].
  rewrite <- Hsid in Ha.
  rewrite (app_allowed _ _ req a Hv Ha Hat), Hmount, Hsid.
  unfold onProxyReq.
  rewrite Hb, outgoing_content_type, Hct, regex_test_some.
  apply contains_spec in Hsub. rewrite Hsub.
  cbn [truthy negb Buffer_byteLength]. eexists. split; reflexivity.
Qed.

(** X11: when the hook rewrites a raw Buffer body, it changes no header
    but Content-Length: every other header of the outgoing request is as
    it was when the hook was called. *)
Theorem X11_raw_hook_keeps_other_headers (p p' : proxyReq) req ct bytes name :
  getHeader p "Content-Type" = Some ct ->
  has_substring SPARQL_TYPE ct ->
  body req = JBuffer bytes ->
  onProxyReq fixRequestBody p req = Normal p' ->
  name <> "content-length" ->
  pr_headers p' !! name = pr_headers p !! name
  /\ pr_headers p' !! "content-length"
     = Some (HNum (Z.of_nat (List.length bytes))).
Proof.
  intros Hct Hsub Hb Hp Hname.
  unfold onProxyReq in Hp. rewrite Hb, Hct, regex_test_some in Hp.
  apply contains_spec in Hsub. rewrite Hsub in Hp.
  cbn [truthy negb Buffer_byteLength method_toString toString_throws] in Hp.
  injection Hp as <-.
  cbn [write setHeader pr_headers].
  change (toLowerCase "Content-Length") with "content-length".
  split; [apply lookup_insert_ne; congruence | apply lookup_insert_eq].
Qed.

(** X12: the proxy is called only for a path that is [/sparql], in any
    letter case, or continues it after a slash. *)
Theorem X12_proxy_only_under_sparql req :
  upstream_contacted (fst (run req)) = true ->
  toLowerCase (path req) = "/sparql"
  \/ exists rest, toLowerCase (path req) = "/sparql/" +:+ rest.
Proof.
  intros Hc. apply mount_sparql_spec.
  assert (Hstage : forall t,
             upstream_contacted t = false ->
             upstream_contacted (fst (proxyStage fixRequestBody t req)) = true ->
             mount_matches "/sparql" (path req) = true).
  { intros t Ht. rewrite proxyStage_calls.
    destruct (mount_matches "/sparql" (path req)); [reflexivity |].
    congruence. }
  destruct (app_cases isAuthorized fixRequestBody req)
    as [(e & _ & H) | [(e & _ & _ & H) | [(v & _ & _ & _ & H)
       | [(v & _ & _ & _ & H) | (w & _ & _ & H)]]]];
    rewrite H in Hc; try discriminate.
  - eapply Hstage; [| exact Hc]. reflexivity.
  - destruct (next_with w); try discriminate.
    eapply Hstage; [| exact Hc]. reflexivity.
Qed.

(** X16: a GET with a truthy [query] URL parameter, a body that is an
    object without keys, a Content-Type (if any) that does not name the
    raw type, a non-empty session header and a truthy answer of the
    predicate, for a path under [/sparql], is forwarded, and the outgoing
    request is the one [fixRequestBody] makes. *)
Theorem X16_authorized_get_is_forwarded req q sid a :
  method req = "GET" ->
  query req !! "query" = Some q ->
  truthy q = true ->
  body req = JObj ∅ ->
  (forall ct, req_get req "Content-Type" = Some ct ->
     ~ has_substring SPARQL_TYPE ct) ->
  headers req !! "mu-session-id" = Some sid ->
  sid <> "" ->
  isAuthorized (Some sid) = Normal a ->
  truthy a = true ->
  mount_matches "/sparql" (path req) = true ->
  app isAuthorized fixRequestBody req
  = ([CallIsAuthorized (Some sid); CallProxy],
     Proxied (fixRequestBody (outgoing req) req)).
Proof.
  intros Hm Hq Hqt Hb Hct Hs Hne Ha Hat Hmount.
  assert (Hv : ensureSparqlParams req = Normal tt).
  { unfold ensureSparqlParams, session_header_missing.
    rewrite (dispatch_get req Hm), req_get_session, Hs.
    unfold ensureGETSparqlParams. rewrite Hq. cbn [default from_option id].
    rewrite Hqt, Hb. cbn [negb Object_keys_length].
    rewrite map_size_empty. cbn [Z.of_nat Z.eqb negb].
    rewrite bool_decide_eq_false_2 by exact Hne. reflexivity. }
  assert (Hsid : req_get req "Mu-Session-Id" = Some sid)
    by (rewrite req_get_session; exact Hs).
  rewrite <- Hsid in Ha.
  rewrite (app_allowed _ _ req a Hv Ha Hat), Hmount, Hsid.
  unfold onProxyReq. rewrite Hb, outgoing_content_type.
  cbn [truthy negb].
  destruct (req_get req "Content-Type") as [ct |] eqn:Hc.
  - rewrite regex_test_some.
    rewrite (proj2 (contains_false SPARQL_TYPE ct) (Hct ct eq_refl)).
    reflexivity.
  - reflexivity.
Qed.

(** X17: a raw body that is well-formed UTF-8, the encoding of a text, is
    forwarded byte for byte, and the Content-Length the hook sets is the
    number of bytes it writes. *)
Theorem X17_utf8_raw_body_forwarded_unchanged req ct text p :
  req_get req "Content-Type" = Some ct ->
  has_substring SPARQL_TYPE ct ->
  body req = JBuffer (utf8_encode text) ->
  forallb is_scalar text = true ->
  snd (app isAuthorized fixRequestBody req) = Proxied p ->
  pr_written p = utf8_encode text
  /\ pr_headers p !! "content-length"
     = Some (HNum (Z.of_nat (List.length (pr_written p)))).
Proof.
  intros Hct Hsub Hb Hs Hp.
  apply proxied_inv in Hp as [_ Hp].
  rewrite (onProxyReq_raw _ req ct (utf8_encode text) Hct Hsub Hb) in Hp.
  injection Hp as <-.
  assert (Hw : pr_written
                 (write (setHeader (outgoing req) "Content-Length"
                           (HNum (Z.of_nat (List.length (utf8_encode text)))))
                    (utf8_decode (utf8_encode text)))
               = utf8_encode text).
  { cbn [write setHeader pr_written outgoing Datatypes.app].
    rewrite (decode_encode text Hs). reflexivity. }
  split; [exact Hw |]. rewrite Hw.
  cbn [write setHeader pr_headers].
  change (toLowerCase "Content-Length") with "content-length".
  apply lookup_insert_eq.
Qed.

End Forwarding.

(* ===================================================================== *)
(** ** Properties of [env.js] and of [errorToStore]                       *)
(* ===================================================================== *)

Module EnvFacts.
Import Text JS N3 Env ErrorStore.

Lemma append_assoc (a b c : string) : (a +:+ b) +:+ c = a +:+ (b +:+ c).
Proof.
  induction a as [| x a IH]; [reflexivity |].
  change (String x ((a +:+ b) +:+ c) = String x (a +:+ (b +:+ c))).
  f_equal. exact IH.
Qed.

Lemma append_empty_r (a : string) : a +:+ "" = a.
Proof.
  induction a as [| x a IH]; [reflexivity |].
  change (String x (a +:+ "") = String x a). f_equal. exact IH.
Qed.

(** The loop of [NAMESPACES], from any object to start with. *)
Lemma namespaces_loop table keys (acc : gmap string (string -> NamedNode)) k :
  fold_left (fun all key => <[key := namespace_of table key]> all) keys acc
    !! k
  = if bool_decide (k ∈ keys) then Some (namespace_of table k) else acc !! k.
Proof.
  revert acc. induction keys as [| a keys IH]; intros acc; cbn [fold_left].
  - rewrite bool_decide_eq_false_2 by apply not_elem_of_nil. reflexivity.
  - rewrite IH. destruct (decide (k ∈ keys)) as [Hin | Hnin].
    + rewrite !bool_decide_eq_true_2; [reflexivity | | exact Hin].
      apply elem_of_cons. now right.
    + rewrite (bool_decide_eq_false_2 _ Hnin).
      destruct (decide (k = a)) as [-> | Hne].
      * rewrite bool_decide_eq_true_2 by (apply elem_of_cons; now left).
        apply lookup_insert_eq.
      * rewrite bool_decide_eq_false_2
          by (rewrite elem_of_cons; intros [? | ?]; contradiction).
        apply lookup_insert_ne. congruence.
Qed.

Lemma table_get_keys table k :
  k ∈ table_keys table <-> is_Some (table_get table k).
Proof.
  unfold table_keys. induction table as [| [k0 v0] rest IH];
    cbn [map fst table_get].
  - split; [intros H; inversion H | intros [? H]; discriminate].
  - rewrite elem_of_cons, IH.
    destruct (bool_decide_reflect (k0 = k)) as [-> | Hne].
    + split; eauto.
    + split; [intros [-> | H]; [contradiction | exact H] | auto].
Qed.

(** In a table without a repeated key, each entry is what its key gets. *)
Lemma table_get_entry table k iri :
  NoDup (table_keys table) ->
  (k, iri) ∈ table ->
  table_get table k = Some iri.
Proof.
  unfold table_keys. induction table as [| [k0 v0] rest IH];
    cbn [map fst table_get]; intros Hnd Hin.
  - inversion Hin.
  - apply NoDup_cons in Hnd as [Hk0 Hnd].
    apply elem_of_cons in Hin as [[= -> ->] | Hin].
    + rewrite bool_decide_eq_true_2 by reflexivity. reflexivity.
    + rewrite bool_decide_eq_false_2; [exact (IH Hnd Hin) |].
      intros ->. apply Hk0.
      apply list_elem_of_In. apply list_elem_of_In in Hin.
      exact (in_map fst rest (k, iri) Hin).
Qed.

(** The loop of [SPARQL_PREFIXES], from any array to start with. *)
Lemma prefixes_loop table keys acc :
  fold_left (fun all key => all ++ [prefix_line table key]) keys acc
  = acc ++ map (prefix_line table) keys.
Proof.
  revert acc. induction keys as [| a keys IH]; intros acc; cbn [fold_left map].
  - now rewrite app_nil_r.
  - rewrite IH, <- app_assoc. reflexivity.
Qed.

(** A string of an array occurs in what [join] makes of the array. *)
Lemma concat_has_substring sep x l :
  x ∈ l -> has_substring x (String.concat sep l).
Proof.
  induction l as [| y l IH]; intros Hin; [inversion Hin |].
  apply elem_of_cons in Hin as [-> | Hin].
  - destruct l as [| z l].
    + exists EmptyString, EmptyString.
      change (String.concat sep [y] = y +:+ ""). now rewrite append_empty_r.
    + exists EmptyString, (sep +:+ String.concat sep (z :: l)). reflexivity.
  - destruct l as [| z l]; [inversion Hin |].
    destruct (IH Hin) as (before & after & Heq).
    exists (y +:+ sep +:+ before), after.
    change (String.concat sep (y :: z :: l))
      with (y +:+ sep +:+ String.concat sep (z :: l)).
    rewrite Heq, !append_assoc. reflexivity.
Qed.

(** A quad the store does not hold is added at its end. *)
Lemma addQuad_fresh (s : store) subj pred obj :
  {| subject := subj; predicate := pred; object := obj |} ∉ s ->
  addQuad s subj pred obj
  = s ++ [{| subject := subj; predicate := pred; object := obj |}].
Proof.
  intros H. unfold addQuad. rewrite bool_decide_eq_false_2 by exact H.
  reflexivity.
Qed.

End EnvFacts.

Import Env ErrorStore EnvFacts.

(** X13: for any table, [NAMESPACES] has an entry exactly under the keys
    of the table, and the entry of a key makes, for a local name, the named
    node whose IRI is the prefix of the key followed by the local name. *)
Theorem X13_namespaces_follow_the_table table key :
  namespaces_of table !! key
  = (fun iri pred => namedNode (Some (iri +:+ pred))) <$> table_get table key.
Proof.
  unfold namespaces_of. rewrite namespaces_loop, lookup_empty.
  destruct (table_get table key) as [iri |] eqn:Hg.
  - rewrite bool_decide_eq_true_2
      by (apply table_get_keys; rewrite Hg; eauto).
    cbn [fmap option_fmap option_map]. unfold namespace_of.
    rewrite Hg. reflexivity.
  - rewrite bool_decide_eq_false_2; [reflexivity |].
    rewrite table_get_keys, Hg. intros [? H]. discriminate.
Qed.

(** X14: for a table without a repeated key, [SPARQL_PREFIXES] is the
    declarations [PREFIX key: <iri>] of the entries, in the order of the
    table, joined by single newlines; so each entry of the table is
    declared in it, with the IRI that [NAMESPACES] puts before local
    names. *)
Theorem X14_sparql_prefixes_declare_the_table table :
  NoDup (table_keys table) ->
  sparql_prefixes_of table
  = String.concat NEWLINE
      (map (fun kv => "PREFIX " +:+ fst kv +:+ ": <" +:+ snd kv +:+ ">") table)
  /\ forall key iri, (key, iri) ∈ table ->
       has_substring ("PREFIX " +:+ key +:+ ": <" +:+ iri +:+ ">")
         (sparql_prefixes_of table)
       /\ namespaces_of table !! key
          = Some (fun pred => namedNode (Some (iri +:+ pred))).
Proof.
  intros Hnd.
  assert (Heq : sparql_prefixes_of table
                = String.concat NEWLINE
                    (map (fun kv => "PREFIX " +:+ fst kv +:+ ": <"
                                    +:+ snd kv +:+ ">") table)).
  { unfold sparql_prefixes_of. rewrite prefixes_loop. cbn [Datatypes.app].
    unfold table_keys. rewrite map_map. f_equal.
    apply map_ext_in. intros [k iri] Hin. cbn [fst snd].
    unfold prefix_line.
    rewrite (table_get_entry table k iri Hnd)
      by (apply list_elem_of_In; exact Hin).
    reflexivity. }
  split; [exact Heq |].
  intros key iri Hin. split.
  - rewrite Heq. apply concat_has_substring.
    apply list_elem_of_In.
    apply (in_map (fun kv => "PREFIX " +:+ fst kv +:+ ": <" +:+ snd kv +:+ ">")
             table (key, iri)).
    apply list_elem_of_In. exact Hin.
  - unfold namespaces_of. rewrite namespaces_loop, lookup_empty.
    rewrite bool_decide_eq_true_2.
    + unfold namespace_of.
      rewrite (table_get_entry table key iri Hnd Hin). reflexivity.
    + apply table_get_keys.
      rewrite (table_get_entry table key iri Hnd Hin). eauto.
Qed.

(** X15: whatever the error and the two identifiers drawn, [errorToStore]
    returns a store of three quads, all about the blank node named by the
    first identifier, and the one object of [oslc:message] in it is the
    literal of the error's message. *)
Theorem X15_error_store_holds_the_message uuid1 uuid2 err :
  exists s,
    errorToStore uuid1 uuid2 err = Normal s
    /\ List.length s = 3%nat
    /\ (forall q, q ∈ s -> subject q = Blank uuid1)
    /\ (forall o,
          {| subject := Blank uuid1;
             predicate :=
               Named (namedNode (Some "http://open-services.net/ns/core#message"));
             object := o |} ∈ s
          <-> o = Literal (err_message err)).
Proof.
  unfold errorToStore.
  replace (ns "rdf" "type")
    with (Normal (Named (namedNode
            (Some "http://www.w3.org/1999/02/22-rdf-syntax-ns#type"))))
    by (vm_compute; reflexivity).
  replace (ns "oslc" "Error")
    with (Normal (Named (namedNode
            (Some "http://open-services.net/ns/core#Error"))))
    by (vm_compute; reflexivity).
  replace (ns "mu" "uuid")
    with (Normal (Named (namedNode
            (Some "http://mu.semte.ch/vocabularies/core/uuid"))))
    by (vm_compute; reflexivity).
  replace (ns "oslc" "message")
    with (Normal (Named (namedNode
            (Some "http://open-services.net/ns/core#message"))))
    by (vm_compute; reflexivity).
  cbv beta iota zeta.
  rewrite (addQuad_fresh []) by apply not_elem_of_nil. cbn [Datatypes.app].
  rewrite (addQuad_fresh [_])
    by (rewrite list_elem_of_singleton; discriminate). cbn [Datatypes.app].
  rewrite (addQuad_fresh [_; _])
    by (rewrite !elem_of_cons, elem_of_nil; intros [H | [H | []]];
        discriminate).
  cbn [Datatypes.app]. eexists. split; [reflexivity |]. split; [reflexivity |]. split.
  - intros q Hq. rewrite !elem_of_cons, elem_of_nil in Hq.
    destruct Hq as [-> | [-> | [-> | []]]]; reflexivity.
  - intros o. rewrite !elem_of_cons, elem_of_nil. split.
    + intros [H | [H | [H | []]]]; try discriminate. now injection H.
    + intros ->. auto.
Qed.

(* ===================================================================== *)
(** ** The further properties on the sample requests                      *)
(* ===================================================================== *)

(** X1 on the raw POST whose session header is empty. *)
Lemma X1_witness_empty_session :
  method_dispatch raw_post_empty_session = Normal tt
  /\ headers raw_post_empty_session !! "mu-session-id" = Some ""
  /\ app allow_all fix_untouched raw_post_empty_session
     = ([], Responded {| res_status := 401; res_message := MSG_SESSION |}).
Proof.
  assert (Hd : method_dispatch raw_post_empty_session = Normal tt)
    by (vm_compute; reflexivity).
  assert (Hs : headers raw_post_empty_session !! "mu-session-id" = Some "")
    by (vm_compute; reflexivity).
  split; [exact Hd |]. split; [exact Hs |].
  exact (X1_missing_or_empty_session_answers_401 allow_all fix_untouched
           raw_post_empty_session Hd (or_intror Hs)).
Defined.

(** X2 on the sample form POST. *)
Lemma X2_witness_form :
  has_substring FORM_TYPE "application/x-www-form-urlencoded; charset=UTF-8"
  /\ ensurePOSTSparqlParams form_post = Normal tt.
Proof.
  assert (Hsub : has_substring FORM_TYPE
                   "application/x-www-form-urlencoded; charset=UTF-8")
    by (exists EmptyString, "; charset=UTF-8"%string; reflexivity).
  split; [exact Hsub |].
  apply (proj1 (X2_form_check_accepts_truthy_query form_post
                  "application/x-www-form-urlencoded; charset=UTF-8"
                  eq_refl Hsub)).
  exists {[ "query" := JStr SELECT ]}, (JStr SELECT).
  split; [reflexivity |]. split; vm_compute; reflexivity.
Defined.

(** X3 on the raw POST of two spaces and a line feed. *)
Lemma X3_witness_blank :
  has_substring SPARQL_TYPE "application/sparql-query"
  /\ ~ has_substring FORM_TYPE "application/sparql-query"
  /\ ensurePOSTSparqlParams raw_post_blank
     = Throw (error_with_status 400 MSG_RAW).
Proof.
  assert (Hsub : has_substring SPARQL_TYPE "application/sparql-query")
    by (exists EmptyString, EmptyString; reflexivity).
  assert (Hnot : ~ has_substring FORM_TYPE "application/sparql-query")
    by (apply contains_false; vm_compute; reflexivity).
  split; [exact Hsub |]. split; [exact Hnot |].
  apply (proj1 (X3_raw_check_refuses_blank_text raw_post_blank
                  "application/sparql-query" eq_refl Hsub Hnot)).
  split; [discriminate |]. split; [discriminate |]. vm_compute. reflexivity.
Defined.

(** X4 on the raw POST whose Content-Type is in capitals. *)
Lemma X4_witness_capitals :
  method raw_post_capitals = "POST"
  /\ ~ has_substring FORM_TYPE "Application/SPARQL-Query"
  /\ ~ has_substring SPARQL_TYPE "Application/SPARQL-Query"
  /\ app allow_all fix_untouched raw_post_capitals
     = ([], Responded {| res_status := 400;
                         res_message := MSG_CONTENT_TYPE |}).
Proof.
  assert (Hf : ~ has_substring FORM_TYPE "Application/SPARQL-Query")
    by (apply contains_false; vm_compute; reflexivity).
  assert (Hs : ~ has_substring SPARQL_TYPE "Application/SPARQL-Query")
    by (apply contains_false; vm_compute; reflexivity).
  split; [reflexivity |]. split; [exact Hf |]. split; [exact Hs |].
  exact (X4_other_content_type_answers_400 allow_all fix_untouched
           raw_post_capitals "Application/SPARQL-Query"
           eq_refl eq_refl Hf Hs).
Defined.

(** X7 on the sample raw POST with a predicate that denies. *)
Lemma X7_witness_denied :
  checkingMiddleware deny_all raw_post
  = ([CallIsAuthorized (Some SESSION)],
     Throw (error_with_status 403 MSG_FORBIDDEN))
  /\ (forall e, deny_all (req_get raw_post "Mu-Session-Id") <> Throw e)
  /\ exists r,
       errorHandler (error_with_status 403 MSG_FORBIDDEN) = Some r
       /\ res_message r = MSG_FORBIDDEN
       /\ (res_status r = 400 \/ res_status r = 401 \/ res_status r = 403
           \/ res_status r = 500).
Proof.
  assert (Hc : checkingMiddleware deny_all raw_post
               = ([CallIsAuthorized (Some SESSION)],
                  Throw (error_with_status 403 MSG_FORBIDDEN)))
    by (vm_compute; reflexivity).
  assert (Hno : forall e, deny_all (req_get raw_post "Mu-Session-Id")
                          <> Throw e) by (intros e; discriminate).
  split; [exact Hc |]. split; [exact Hno |].
  exact (X7_statuses_of_checking_errors deny_all raw_post
           [CallIsAuthorized (Some SESSION)]
           (error_with_status 403 MSG_FORBIDDEN) Hc Hno).
Defined.

(** X8 on the sample form POST. *)
Lemma X8_witness_form :
  app allow_all fix_untouched form_post
  = ([CallIsAuthorized (Some SESSION); CallProxy],
     Proxied (fix_untouched (outgoing form_post) form_post)).
Proof.
  apply (X8_authorized_form_is_forwarded allow_all fix_untouched form_post
           "application/x-www-form-urlencoded; charset=UTF-8"
           {[ "query" := JStr SELECT ]} (JStr SELECT) SESSION (JBool true));
    try (vm_compute; reflexivity).
  - exists EmptyString, "; charset=UTF-8"%string. reflexivity.
  - apply contains_false. vm_compute. reflexivity.
  - discriminate.
Defined.

(** X9 on the sample raw POST. *)
Lemma X9_witness_raw :
  app allow_all fix_untouched raw_post
  = ([CallIsAuthorized (Some SESSION); CallProxy],
     Proxied (write (setHeader (outgoing raw_post) "Content-Length"
                       (HNum (Z.of_nat (List.length (utf8_encode SELECT)))))
                (utf8_decode (utf8_encode SELECT)))).
Proof.
  apply (X9_authorized_raw_query_is_forwarded allow_all fix_untouched
           raw_post "application/sparql-query" (utf8_encode SELECT)
           SESSION (JBool true));
    try (vm_compute; reflexivity).
  - exists EmptyString, EmptyString. reflexivity.
  - apply contains_false. vm_compute. reflexivity.
  - discriminate.
Defined.

(** X10 on the raw POST sent without a body. *)
Lemma X10_witness_object_body :
  body raw_post_object_body = JObj ∅
  /\ ensureSparqlParams raw_post_object_body = Normal tt
  /\ exists e,
       app allow_all fix_untouched raw_post_object_body
       = ([CallIsAuthorized (Some SESSION); CallProxy], ProxyHookThrew e)
       /\ err_status e = None.
Proof.
  split; [reflexivity |].
  apply (X10_object_body_fails_in_the_hook allow_all fix_untouched
           raw_post_object_body "application/sparql-query" ∅
           SESSION (JBool true));
    try (vm_compute; reflexivity).
  - exists EmptyString, EmptyString. reflexivity.
  - apply contains_false. vm_compute. reflexivity.
  - discriminate.
Defined.

(** X11 on the sample raw POST: the session header is not touched. *)
Lemma X11_witness_session_header :
  onProxyReq fix_untouched (outgoing raw_post) raw_post
  = Normal raw_post_outgoing
  /\ pr_headers raw_post_outgoing !! "mu-session-id"
     = pr_headers (outgoing raw_post) !! "mu-session-id"
  /\ pr_headers raw_post_outgoing !! "content-length" = Some (HNum 35).
Proof.
  assert (Hp : onProxyReq fix_untouched (outgoing raw_post) raw_post
               = Normal raw_post_outgoing) by (vm_compute; reflexivity).
  split; [exact Hp |].
  exact (X11_raw_hook_keeps_other_headers fix_untouched
           (outgoing raw_post) raw_post_outgoing raw_post
           "application/sparql-query" (utf8_encode SELECT) "mu-session-id"
           eq_refl
           (ex_intro _ EmptyString (ex_intro _ EmptyString eq_refl))
           eq_refl Hp ltac:(discriminate)).
Defined.

(** X12 on the sample raw POST. *)
Lemma X12_witness_path :
  upstream_contacted (fst (app allow_all fix_untouched raw_post)) = true
  /\ (toLowerCase (path raw_post) = "/sparql"
      \/ exists rest, toLowerCase (path raw_post) = "/sparql/" +:+ rest).
Proof.
  assert (Hc : upstream_contacted (fst (app allow_all fix_untouched raw_post))
               = true) by (vm_compute; reflexivity).
  split; [exact Hc |].
  exact (X12_proxy_only_under_sparql allow_all fix_untouched raw_post Hc).
Defined.

(** X14 on the table of [env.js]: its keys are distinct, and [oslc] is
    declared with the IRI its namespace uses. *)
Lemma X14_witness_prefixes :
  NoDup (table_keys PREFIXES)
  /\ has_substring "PREFIX oslc: <http://open-services.net/ns/core#>"
       SPARQL_PREFIXES
  /\ NAMESPACES !! "oslc"
     = Some (fun pred =>
               namedNode (Some ("http://open-services.net/ns/core#" +:+ pred))).
Proof.
  assert (Hnd : NoDup (table_keys PREFIXES))
    by (apply (bool_decide_eq_true_1 (NoDup (table_keys PREFIXES)));
        vm_compute; reflexivity).
  split; [exact Hnd |].
  apply (proj2 (X14_sparql_prefixes_declare_the_table PREFIXES Hnd)
           "oslc" "http://open-services.net/ns/core#").
  apply (bool_decide_eq_true_1
           (("oslc", "http://open-services.net/ns/core#") ∈ PREFIXES)).
  vm_compute. reflexivity.
Defined.

(** X16 on the sample GET. *)
Lemma X16_witness_get :
  method get_with_query = "GET"
  /\ body get_with_query = JObj ∅
  /\ app allow_all fix_untouched get_with_query
     = ([CallIsAuthorized (Some SESSION); CallProxy],
        Proxied (fix_untouched (outgoing get_with_query) get_with_query)).
Proof.
  split; [reflexivity |]. split; [reflexivity |].
  apply (X16_authorized_get_is_forwarded allow_all fix_untouched
           get_with_query (JStr SELECT) SESSION (JBool true));
    try (vm_compute; reflexivity).
  - intros ct Hct. vm_compute in Hct. discriminate.
  - discriminate.
Defined.

(** X17 on the sample raw POST: the query goes out byte for byte. *)
Lemma X17_witness_select :
  has_substring SPARQL_TYPE "application/sparql-query"
  /\ forallb is_scalar SELECT = true
  /\ snd (app allow_all fix_untouched raw_post) = Proxied raw_post_outgoing
  /\ pr_written raw_post_outgoing = utf8_encode SELECT
  /\ pr_headers raw_post_outgoing !! "content-length"
     = Some (HNum (Z.of_nat (List.length (pr_written raw_post_outgoing)))).
Proof.
  assert (Hsub : has_substring SPARQL_TYPE "application/sparql-query")
    by (exists EmptyString, EmptyString; reflexivity).
  assert (Hs : forallb is_scalar SELECT = true) by (vm_compute; reflexivity).
  assert (Hp : snd (app allow_all fix_untouched raw_post)
               = Proxied raw_post_outgoing) by (vm_compute; reflexivity).
  split; [exact Hsub |]. split; [exact Hs |]. split; [exact Hp |].
  exact (X17_utf8_raw_body_forwarded_unchanged allow_all fix_untouched
           raw_post "application/sparql-query" SELECT raw_post_outgoing
           eq_refl Hsub eq_refl Hs Hp).
Defined.
